(** * SocketPacketUtils: a shallow embedding of socket_packet_utils.c

    One endpoint ([serv_socket_state_t]) is modelled as explicit state.  The
    operating system is an oracle [os] that answers every system call from the
    history of calls made so far; the process environment is [env].  Every
    system call, [getenv] and [usleep] is recorded in a trace (most recent
    first).  Process termination by [exit] and by a failed [assert] are
    outcomes of their own; the unbounded [while] loops of the blocking phases
    of [socket_getN] and [socket_putN] run on fuel, and running out of fuel is
    the outcome [Stuck] (the loop has not returned yet).  The diagnostics
    printed with [printf] and [perror] are not modelled. *)

From Stdlib Require Import ZArith List String Ascii Lia.
From Stdlib Require Import Strings.Byte.
Import ListNotations.
Open Scope Z_scope.
Open Scope bool_scope.

Module SocketPacketUtils.

(** ** C integers *)

Definition to_int32 (x : Z) : Z :=
  let m := x mod 2 ^ 32 in if m >=? 2 ^ 31 then m - 2 ^ 32 else m.

Definition to_uint32 (x : Z) : Z := x mod 2 ^ 32.

(** [(uint32_t) -1], the no-data value of [socket_get8]. *)
Definition GET8_NODATA : Z := to_uint32 (-1).

Definition EAGAIN : Z := 11.
Definition EBADF : Z := 9.
Definition EPIPE : Z := 32.

Definition byte_val (b : byte) : Z := Z.of_N (Byte.to_N b).

(** ** [atoi] (glibc: [(int) strtol (s, NULL, 10)]) *)

Definition is_space (c : ascii) : bool :=
  let n := nat_of_ascii c in (n =? 32)%nat || ((9 <=? n)%nat && (n <=? 13)%nat).

Definition digit_of (c : ascii) : option Z :=
  let n := nat_of_ascii c in
  if ((48 <=? n)%nat && (n <=? 57)%nat) then Some (Z.of_nat n - 48) else None.

Fixpoint skip_spaces (s : string) : string :=
  match s with
  | String c s' => if is_space c then skip_spaces s' else s
  | EmptyString => s
  end.

Fixpoint digits_val (s : string) (acc : Z) : Z :=
  match s with
  | String c s' =>
      match digit_of c with Some d => digits_val s' (acc * 10 + d) | None => acc end
  | EmptyString => acc
  end.

Definition LONG_MIN : Z := - 2 ^ 63.
Definition LONG_MAX : Z := 2 ^ 63 - 1.

Definition strtol10 (s : string) : Z :=
  let v :=
    match skip_spaces s with
    | String "-"%char r => - digits_val r 0
    | String "+"%char r => digits_val r 0
    | r => digits_val r 0
    end in
  Z.max LONG_MIN (Z.min LONG_MAX v).

Definition atoi (s : string) : Z := to_int32 (strtol10 s).

(** ** Endpoint state *)

Definition STR_BUFF_SZ : nat := 256.

Record serv_socket_state := mk_state {
  name : string;
  port : Z;
  sock : Z;
  conn : Z
}.

Definition set_sock (s : serv_socket_state) (v : Z) :=
  mk_state (name s) (port s) v (conn s).
Definition set_port (s : serv_socket_state) (v : Z) :=
  mk_state (name s) v (sock s) (conn s).
Definition set_conn (s : serv_socket_state) (v : Z) :=
  mk_state (name s) (port s) (sock s) v.

(** ** System calls, answers and the monad *)

Inductive event :=
| EvSignalIgnPipe
| EvSocket
| EvSetsockopt (fd : Z)
| EvGetenv (var : string)
| EvBind (fd port : Z)
| EvListen (fd : Z)
| EvConnect (fd port : Z)
| EvFcntlGetfl (fd : Z)
| EvFcntlSetfl (fd : Z)
| EvAccept (fd : Z)
| EvRead (fd len : Z)
| EvWrite (fd : Z) (bytes : list byte)
| EvSelectRead (fd : Z)
| EvSelectWrite (fd : Z)
| EvClose (fd : Z)
| EvUsleep (usec : Z).

(** What the system returns: the return value, [errno], and for [read]
    the bytes delivered (of which the first [ret] are stored). *)
Record answer := mk_answer { ret : Z; err : Z; rdata : list byte }.

Definition transient (a : answer) : bool := (ret a =? -1) && (err a =? EAGAIN).

Inductive outcome (A : Type) :=
| Done (a : A)
| Exited
| Aborted
| Stuck.
Arguments Done {A} a.
Arguments Exited {A}.
Arguments Aborted {A}.
Arguments Stuck {A}.

Record world := mk_world { st : serv_socket_state; trace : list event }.

Definition M (A : Type) : Type := world -> outcome A * world.

Definition mret {A} (a : A) : M A := fun w => (Done a, w).

Definition mbind {A B} (m : M A) (f : A -> M B) : M B :=
  fun w =>
    match m w with
    | (Done a, w') => f a w'
    | (Exited, w') => (Exited, w')
    | (Aborted, w') => (Aborted, w')
    | (Stuck, w') => (Stuck, w')
    end.

Notation "x <- c1 ;; c2" := (mbind c1 (fun x => c2))
  (at level 61, c1 at next level, right associativity).
Notation "c1 ;; c2" := (mbind c1 (fun _ => c2)) (at level 61, right associativity).

Definition get_st : M serv_socket_state := fun w => (Done (st w), w).
Definition put_st (s : serv_socket_state) : M unit :=
  fun w => (Done tt, mk_world s (trace w)).
Definition exit_failure {A} : M A := fun w => (Exited, w).
Definition assert_ (b : bool) : M unit := fun w => if b then (Done tt, w) else (Aborted, w).
Definition stuck {A} : M A := fun w => (Stuck, w).

Section Program.

Variable os : list event -> event -> answer.
Variable env : string -> option string.

Definition syscall (e : event) : M answer :=
  fun w => (Done (os (trace w) e), mk_world (st w) (e :: trace w)).

Definition getenv (var : string) : M (option string) :=
  fun w => (Done (env var), mk_world (st w) (EvGetenv var :: trace w)).

Definition signal_ign_pipe : M unit := _ <- syscall EvSignalIgnPipe ;; mret tt.

Definition usleep (usec : Z) : M unit := _ <- syscall (EvUsleep usec) ;; mret tt.

Definition close (fd : Z) : M unit := _ <- syscall (EvClose fd) ;; mret tt.

(** [close(s->conn); s->conn = -1;] *)
Definition drop_conn : M unit :=
  s <- get_st ;;
  close (conn s) ;;
  s' <- get_st ;;
  put_st (set_conn s' (-1)).

(** ** General helpers *)

Definition getPortNumber (nm : string) (dflt_port : Z) : M Z :=
  s <- getenv (nm ++ "_PORT") ;;
  let port := match s with
              | Some v => atoi v
              | None => to_int32 dflt_port
              end in
  assert_ ((0 <=? port) && (port <=? 65535)) ;;
  mret port.

Definition socketSetNonBlocking (fd : Z) : M unit :=
  flags <- syscall (EvFcntlGetfl fd) ;;
  if ret flags =? -1 then exit_failure else
  r <- syscall (EvFcntlSetfl fd) ;;
  if ret r =? -1 then exit_failure else
  mret tt.

(** ** Endpoint operations *)

(** [socket_create]: [s->port] is an [int] assigned from the [unsigned int]
    default.  (A name of [STR_BUFF_SZ] bytes or more is left without its
    terminating NUL by [strncpy]; the model keeps the first [STR_BUFF_SZ]
    characters.) *)
Definition socket_create (nm : string) (dflt_port : Z) : serv_socket_state :=
  mk_state (substring 0 STR_BUFF_SZ nm) (to_int32 dflt_port) (-1) (-1).

Definition socket_init (server : bool) : M unit :=
  s <- get_st ;;
  if negb (sock s =? -1) then mret tt else
  signal_ign_pipe ;;
  fd <- syscall EvSocket ;;
  put_st (set_sock s (ret fd)) ;;
  if ret fd =? -1 then exit_failure else
  o <- syscall (EvSetsockopt (ret fd)) ;;
  if ret o =? -1 then exit_failure else
  s1 <- get_st ;;
  p <- getPortNumber (name s1) (to_uint32 (port s1)) ;;
  s2 <- get_st ;;
  put_st (set_port s2 p) ;;
  (if server then
     b <- syscall (EvBind (ret fd) p) ;;
     if ret b =? -1 then exit_failure else
     l <- syscall (EvListen (ret fd)) ;;
     if ret l =? -1 then exit_failure else mret tt
   else
     c <- syscall (EvConnect (ret fd) p) ;;
     if ret c =? -1 then exit_failure else mret tt) ;;
  socketSetNonBlocking (ret fd).

Definition acceptConnection (server : bool) : M unit :=
  s <- get_st ;;
  if negb (conn s =? -1) then mret tt else
  (if sock s =? -1 then socket_init server else mret tt) ;;
  s1 <- get_st ;;
  if server then
    a <- syscall (EvAccept (sock s1)) ;;
    put_st (set_conn s1 (ret a)) ;;
    if negb (ret a =? -1) then socketSetNonBlocking (ret a) else mret tt
  else put_st (set_conn s1 (sock s1)).

Definition first_byte (l : list byte) : byte :=
  match l with b :: _ => b | [] => x00 end.

Definition socket_get8 (server : bool) : M Z :=
  acceptConnection server ;;
  s <- get_st ;;
  if conn s =? -1 then mret GET8_NODATA else
  a <- syscall (EvRead (conn s) 1) ;;
  if ret a =? 1 then mret (byte_val (first_byte (rdata a))) else
  (if negb (transient a) then drop_conn else mret tt) ;;
  mret GET8_NODATA.

Definition socket_put8 (b : byte) (server : bool) : M Z :=
  acceptConnection server ;;
  s <- get_st ;;
  if conn s =? -1 then mret 0 else
  a <- syscall (EvWrite (conn s) [b]) ;;
  if ret a =? 1 then mret 1 else
  (if negb (transient a) then drop_conn else mret tt) ;;
  mret 0.

(** The [for (int i = 1; i <= 1000; i++)] loop; [i] counts the attempts left. *)
Fixpoint put8_blocking_loop (i : nat) (b : byte) : M Z :=
  match i with
  | O => mret 0
  | S i' =>
      s <- get_st ;;
      a <- syscall (EvWrite (conn s) [b]) ;;
      if ret a =? 1 then mret 1 else
      if negb (transient a) then mret 0 else
      usleep 1000000 ;;
      put8_blocking_loop i' b
  end.

Definition socket_put8_blocking (b : byte) (server : bool) : M Z :=
  acceptConnection server ;;
  s <- get_st ;;
  if conn s =? -1 then mret 0 else
  put8_blocking_loop 1000 b.

(** ** Bulk transfers *)

(** The caller's result buffer, indexed by byte offset. *)
Definition buffer := Z -> byte.

Definition upd (buf : buffer) (i : Z) (v : byte) : buffer :=
  fun j => if j =? i then v else buf j.

(** [read] stores the bytes it delivers from offset [off] on. *)
Fixpoint store (buf : buffer) (off : Z) (l : list byte) : buffer :=
  match l with
  | [] => buf
  | b :: l' => store (upd buf off b) (off + 1) l'
  end.

Definition delivered (a : answer) : list byte := firstn (Z.to_nat (ret a)) (rdata a).

(** [while (count < nbytes) { select; assert; read; assert; count += res; }] *)
Fixpoint getN_loop (fuel : nat) (fd nbytes count : Z) (buf : buffer)
  : M (buffer * Z) :=
  if count <? nbytes then
    match fuel with
    | O => stuck
    | S fuel' =>
        r <- syscall (EvSelectRead fd) ;;
        assert_ (ret r >=? 0) ;;
        a <- syscall (EvRead fd (nbytes - count)) ;;
        assert_ (ret a >=? 0) ;;
        getN_loop fuel' fd nbytes (count + ret a) (store buf count (delivered a))
    end
  else mret (buf, count).

Definition socket_getN (fuel : nat) (result : buffer) (nbytes : Z) (server : bool)
  : M buffer :=
  acceptConnection server ;;
  s <- get_st ;;
  if conn s =? -1 then mret (upd result nbytes xff) else
  a <- syscall (EvRead (conn s) nbytes) ;;
  let count := ret a in
  let bytes := store result 0 (delivered a) in
  if count =? nbytes then mret (upd bytes nbytes x00)
  else if count >? 0 then
    r <- getN_loop fuel (conn s) nbytes count bytes ;;
    mret (upd (fst r) nbytes x00)
  else
    let bytes' := upd bytes nbytes xff in
    (if negb (transient a) then drop_conn else mret tt) ;;
    mret bytes'.

Definition slice (data : list byte) (from len : Z) : list byte :=
  firstn (Z.to_nat len) (skipn (Z.to_nat from) data).

Fixpoint putN_loop (fuel : nat) (fd nbytes count : Z) (data : list byte) : M Z :=
  if count <? nbytes then
    match fuel with
    | O => stuck
    | S fuel' =>
        r <- syscall (EvSelectWrite fd) ;;
        assert_ (ret r >=? 0) ;;
        a <- syscall (EvWrite fd (slice data count (nbytes - count))) ;;
        assert_ (ret a >=? 0) ;;
        putN_loop fuel' fd nbytes (count + ret a) data
    end
  else mret count.

Definition socket_putN (fuel : nat) (nbytes : Z) (data : list byte) (server : bool)
  : M Z :=
  acceptConnection server ;;
  s <- get_st ;;
  if conn s =? -1 then mret 0 else
  a <- syscall (EvWrite (conn s) (slice data 0 nbytes)) ;;
  let count := ret a in
  if count =? nbytes then mret 1
  else if count >? 0 then
    _ <- putN_loop fuel (conn s) nbytes count data ;;
    mret 1
  else
    (if negb (transient a) then drop_conn else mret tt) ;;
    mret 0.

(** ** Sequences of calls on one endpoint *)

Inductive op :=
| OpInit
| OpGet8
| OpPut8 (b : byte)
| OpPut8Blocking (b : byte)
| OpGetN (result : buffer) (nbytes : Z)
| OpPutN (nbytes : Z) (data : list byte).

Definition run_op (fuel : nat) (server : bool) (o : op) : M unit :=
  match o with
  | OpInit => socket_init server
  | OpGet8 => _ <- socket_get8 server ;; mret tt
  | OpPut8 b => _ <- socket_put8 b server ;; mret tt
  | OpPut8Blocking b => _ <- socket_put8_blocking b server ;; mret tt
  | OpGetN result n => _ <- socket_getN fuel result n server ;; mret tt
  | OpPutN n data => _ <- socket_putN fuel n data server ;; mret tt
  end.

Fixpoint run_ops (fuel : nat) (server : bool) (ops : list op) : M unit :=
  match ops with
  | [] => mret tt
  | o :: ops' => run_op fuel server o ;; run_ops fuel server ops'
  end.

End Program.

(** ** Traces of the retry loop of [socket_put8_blocking] *)

(** The trace after [k] rounds of a one-byte write on [fd] followed by
    [usleep(1000000)]. *)
Fixpoint rounds_trace (tr : list event) (fd : Z) (b : byte) (k : nat) : list event :=
  match k with
  | O => tr
  | S k' => rounds_trace (EvUsleep 1000000 :: EvWrite fd [b] :: tr) fd b k'
  end.

(** Each of those [k] writes was answered with a transient [EAGAIN]. *)
Fixpoint transient_rounds (os : list event -> event -> answer)
    (tr : list event) (fd : Z) (b : byte) (k : nat) : Prop :=
  match k with
  | O => True
  | S k' => transient (os tr (EvWrite fd [b])) = true /\
            transient_rounds os (EvUsleep 1000000 :: EvWrite fd [b] :: tr) fd b k'
  end.

(** ** Runs that do not touch the listen descriptor or the port *)

(** [ext tr tr']: [tr'] extends [tr] by events none of which is a [getenv]. *)
Inductive ext : list event -> list event -> Prop :=
| ext_refl tr : ext tr tr
| ext_cons e tr tr' : ext tr tr' -> (forall v, e <> EvGetenv v) -> ext tr (e :: tr').

Definition stable (w w' : world) : Prop :=
  sock (st w') = sock (st w) /\ port (st w') = port (st w) /\
  name (st w') = name (st w) /\ ext (trace w) (trace w').

(** ** A closed descriptor *)

(** Every [read] and [write] on [fd] fails with an [errno] other than
    [EAGAIN] (for instance [EBADF] once [fd] has been closed and its number
    not handed out again). *)
Definition dead_fd (os : list event -> event -> answer) (fd : Z) : Prop :=
  (forall tr len, ret (os tr (EvRead fd len)) = -1 /\
                  transient (os tr (EvRead fd len)) = false) /\
  (forall tr bytes, ret (os tr (EvWrite fd bytes)) = -1 /\
                    transient (os tr (EvWrite fd bytes)) = false).

(** [read] never reports more bytes than it was asked for. *)
Definition reads_bounded (os : list event -> event -> answer) : Prop :=
  forall tr fd len, ret (os tr (EvRead fd len)) <= len.

(** The calls of the C3 sequences: every call but [put8Blocking], with a
    non-negative length for the bulk transfers. *)
Definition client_op_ok (o : op) : bool :=
  match o with
  | OpPut8Blocking _ => false
  | OpGetN _ n => 0 <=? n
  | OpPutN n _ => 0 <=? n
  | _ => true
  end.

(** The port the first [init] of an endpoint in state [s] resolves. *)
Definition resolved_port (env : string -> option string) (s : serv_socket_state) : Z :=
  match env (String.append (name s) "_PORT") with
  | Some v => atoi v
  | None => to_int32 (to_uint32 (port s))
  end.

(** ** The nameless constructor *)

Definition ENV_DFLT_SOCKET_NAME : string := "SOCKET_PACKET_UTILS_DFLT_SOCKET_NAME".
Definition DFLT_SOCKET_NAME : string := "SOCKET_PACKET_UTILS_DFLT".

(** [serv_socket_create_nameless]: the name is taken from the environment,
    or the default name.  (Creation is outside the traced monad; its
    [getenv] is read directly from [env].) *)
Definition serv_socket_create_nameless (env : string -> option string)
    (dflt_port : Z) : serv_socket_state :=
  match env ENV_DFLT_SOCKET_NAME with
  | Some s => socket_create s dflt_port
  | None => socket_create DFLT_SOCKET_NAME dflt_port
  end.

End SocketPacketUtils.

(** * Decimal numerals, to state what [atoi] reads *)

Module Numerals.

Definition digit_char (d : nat) : ascii := ascii_of_nat (48 + d).

(** The numeral written with the decimal digits [ds], most significant first. *)
Fixpoint numeral (ds : list nat) : string :=
  match ds with
  | [] => EmptyString
  | d :: ds' => String (digit_char d) (numeral ds')
  end.

Definition numeral_value (ds : list nat) : Z :=
  fold_left (fun acc d => acc * 10 + Z.of_nat d) ds 0.

End Numerals.

(** * Concrete runs *)

Module Examples.
Import SocketPacketUtils.

Definition env0 : string -> option string := fun _ => None.

(** A Server endpoint with listen descriptor 3 and connection 5. *)
Definition st_att : serv_socket_state := mk_state "sock" 5000 3 5.
Definition w_att : world := mk_world st_att [].

(** A Client endpoint: its connection is its descriptor 3. *)
Definition w_cl : world := mk_world (mk_state "sock" 5000 3 3) [].

Definition buf0 : buffer := fun _ => x00.

Definition ECONNRESET : Z := 104.

(** Every call returns [0]: a [read] at end of stream. *)
Definition os_eof : list event -> event -> answer := fun _ _ => mk_answer 0 0 [].

(** Every call fails with [EPIPE]: the peer has gone. *)
Definition os_epipe : list event -> event -> answer :=
  fun _ _ => mk_answer (-1) EPIPE [].

(** The first write sends 2 bytes, the socket is then writable, and the next
    write fails with [EPIPE]. *)
Definition os_partial_write : list event -> event -> answer :=
  fun tr e =>
    match e with
    | EvWrite _ _ => match tr with [] => mk_answer 2 0 [] | _ => mk_answer (-1) EPIPE [] end
    | EvSelectWrite _ => mk_answer 1 0 []
    | _ => mk_answer 0 0 []
    end.

(** The first read fails with [ECONNRESET]; afterwards descriptor 3 has been
    handed out again to another connection, on which a byte [0x41] is
    waiting. *)
Definition os_reuse : list event -> event -> answer :=
  fun tr e =>
    match e with
    | EvRead _ _ => match tr with [] => mk_answer (-1) ECONNRESET [] | _ => mk_answer 1 0 [x41] end
    | _ => mk_answer 0 0 []
    end.

(** Every call succeeds with the full length and data [0x41 ...]. *)
Definition os_ok : list event -> event -> answer :=
  fun _ e =>
    match e with
    | EvRead _ n => mk_answer n 0 (repeat x41 (Z.to_nat n))
    | EvWrite _ l => mk_answer (Z.of_nat (List.length l)) 0 []
    | _ => mk_answer 0 0 []
    end.

(** A Client endpoint detached from its descriptor 3, which has been closed. *)
Definition w_dead : world := mk_world (mk_state "sock" 5000 3 (-1)) [].

Definition os_dead : list event -> event -> answer :=
  fun _ _ => mk_answer (-1) EBADF [].

(** A fresh endpoint, before [init]. *)
Definition w_fresh : world := mk_world (socket_create "sock" 5000) [].

(** [sock_PORT=80x]: a port numeral followed by a non-digit. *)
Definition env_port80 : string -> option string :=
  fun v => if String.eqb v "sock_PORT" then Some "80x"%string else None.

End Examples.

(** * Proofs *)

Module Facts.
Import SocketPacketUtils.

Lemma bind_step {A B} (m : M A) (f : A -> M B) w a w' :
  m w = (Done a, w') -> mbind m f w = f a w'.
Proof. unfold mbind. intros ->. reflexivity. Qed.

Lemma bind_ret {A B} (a : A) (f : A -> M B) w : mbind (mret a) f w = f a w.
Proof. reflexivity. Qed.

Lemma bind_get {B} (f : serv_socket_state -> M B) w : mbind get_st f w = f (st w) w.
Proof. reflexivity. Qed.

Lemma GET8_NODATA_val : GET8_NODATA = 4294967295.
Proof. reflexivity. Qed.

Ltac finish :=
  rewrite ?GET8_NODATA_val; repeat split; intros; simpl in *;
  try lia; try congruence; intuition (try lia; try congruence).

Section Attached.
Variable os : list event -> event -> answer.
Variable env : string -> option string.

Lemma accept_attached server w :
  conn (st w) <> -1 -> acceptConnection os env server w = (Done tt, w).
Proof.
  intros H. unfold acceptConnection. rewrite bind_get.
  apply Z.eqb_neq in H. rewrite H. reflexivity.
Qed.


Lemma drop_conn_spec w :
  drop_conn os w =
  (Done tt, mk_world (set_conn (st w) (-1)) (EvClose (conn (st w)) :: trace w)).
Proof. reflexivity. Qed.

Lemma byte_val_range b : 0 <= byte_val b <= 255.
Proof.
  unfold byte_val. destruct b; vm_compute; split; discriminate.
Qed.

(** C5: [get8] returns a byte in [[0, 255]] or the no-data value
    [0xFFFFFFFF]; it returns the no-data value exactly when no connection is
    attached after [acceptConnection], or the one-byte read did not deliver a
    byte (a transient [EAGAIN], which keeps the connection, or any other
    outcome, which detaches it); when the read delivers one byte, [get8]
    returns that byte, after that one read alone. *)
Theorem get8_result server w w1 :
  acceptConnection os env server w = (Done tt, w1) ->
  let a := os (trace w1) (EvRead (conn (st w1)) 1) in
  exists r w',
    socket_get8 os env server w = (Done r, w') /\
    (0 <= r <= 255 \/ r = GET8_NODATA) /\ 255 < GET8_NODATA /\
    (r = GET8_NODATA <-> conn (st w1) = -1 \/ ret a <> 1) /\
    (conn (st w1) = -1 -> w' = w1) /\
    (conn (st w1) <> -1 -> transient a = true -> st w' = st w1) /\
    (conn (st w1) <> -1 -> ret a <> 1 -> transient a = false -> conn (st w') = -1) /\
    (conn (st w1) <> -1 -> ret a = 1 ->
       r = byte_val (first_byte (rdata a)) /\
       w' = mk_world (st w1) (EvRead (conn (st w1)) 1 :: trace w1)).
Proof.
  intros H a. unfold socket_get8. rewrite (bind_step _ _ _ _ _ H), bind_get.
  pose proof (byte_val_range (first_byte (rdata a))).
  destruct (conn (st w1) =? -1) eqn:Ec.
  - apply Z.eqb_eq in Ec. do 2 eexists. split; [reflexivity|]. finish.
  - apply Z.eqb_neq in Ec. cbn [mbind syscall]. fold a.
    destruct (ret a =? 1) eqn:E1.
    + apply Z.eqb_eq in E1. do 2 eexists. split; [reflexivity|]. finish.
    + apply Z.eqb_neq in E1.
      destruct (transient a) eqn:Et; do 2 eexists; split; try reflexivity; finish.
Qed.

Lemma transient_ret a : transient a = true -> ret a = -1.
Proof. unfold transient. intros H. apply andb_prop in H. destruct H. lia. Qed.

(** C6: [put8] reports success exactly when a connection is attached and the
    single write accepted one byte; a transient [EAGAIN] keeps the connection,
    any other failed write detaches it. *)
Theorem put8_result server b w w1 :
  acceptConnection os env server w = (Done tt, w1) ->
  let a := os (trace w1) (EvWrite (conn (st w1)) [b]) in
  exists r w',
    socket_put8 os env b server w = (Done r, w') /\
    (r = 0 \/ r = 1) /\
    (r = 1 <-> conn (st w1) <> -1 /\ ret a = 1) /\
    (conn (st w1) = -1 -> r = 0 /\ w' = w1) /\
    (conn (st w1) <> -1 -> transient a = true -> r = 0 /\ st w' = st w1) /\
    (conn (st w1) <> -1 -> ret a <> 1 -> transient a = false ->
       r = 0 /\ conn (st w') = -1).
Proof.
  intros H a. unfold socket_put8. rewrite (bind_step _ _ _ _ _ H), bind_get.
  destruct (conn (st w1) =? -1) eqn:Ec.
  - apply Z.eqb_eq in Ec. do 2 eexists. split; [reflexivity|]. finish.
  - apply Z.eqb_neq in Ec. cbn [mbind syscall]. fold a.
    destruct (ret a =? 1) eqn:E1.
    + apply Z.eqb_eq in E1. do 2 eexists. split; [reflexivity|].
      finish; apply transient_ret in H1; lia.
    + apply Z.eqb_neq in E1.
      destruct (transient a) eqn:Et; do 2 eexists; split; try reflexivity; finish.
Qed.

Lemma upd_same buf i v : upd buf i v i = v.
Proof. unfold upd. rewrite Z.eqb_refl. reflexivity. Qed.

Lemma getN_loop_done fuel fd n cnt buf w r w' :
  getN_loop os fuel fd n cnt buf w = (Done r, w') -> n <= snd r /\ st w' = st w.
Proof.
  revert cnt buf w. induction fuel as [|fuel IH]; intros cnt buf w; simpl.
  - destruct (cnt <? n) eqn:E; intros Hr; inversion Hr; subst; simpl.
    apply Z.ltb_ge in E. auto.
  - destruct (cnt <? n) eqn:E.
    + unfold mbind, syscall, assert_. simpl.
      destruct (ret _ >=? 0); [|discriminate].
      destruct (ret _ >=? 0); [|discriminate].
      intros Hr. apply IH in Hr. simpl in Hr. tauto.
    + intros Hr; inversion Hr; subst; simpl. apply Z.ltb_ge in E. auto.
Qed.

Lemma getN_loop_no_exit fuel fd n cnt buf w :
  fst (getN_loop os fuel fd n cnt buf w) <> Exited.
Proof.
  revert cnt buf w. induction fuel as [|fuel IH]; intros cnt buf w; simpl.
  - destruct (cnt <? n); discriminate.
  - destruct (cnt <? n).
    + unfold mbind, syscall, assert_. simpl.
      destruct (ret _ >=? 0); [|discriminate].
      destruct (ret _ >=? 0); [|discriminate]. apply IH.
    + discriminate.
Qed.

(** C1 (as amended): on an attached endpoint and for [n > 0], the first
    non-blocking read of [getN] decides among four outcomes.  All [n] bytes:
    status slot [n] is [0].  [k] bytes with [0 < k < n]: the blocking loop
    reads until at least [n] bytes are in, and if it returns the status slot
    is [0]; otherwise the process aborts on an [assert] or the loop has not
    returned.  A transient [EAGAIN]: status [0xFF], still attached.  Any other
    outcome ([0] bytes at end of stream, or a non-[EAGAIN] error): status
    [0xFF] and the connection is detached. *)
Theorem getN_outcomes fuel buf n server w :
  conn (st w) <> -1 -> 0 < n ->
  let c := conn (st w) in
  let a := os (trace w) (EvRead c n) in
  let w1 := mk_world (st w) (EvRead c n :: trace w) in
  let bytes := store buf 0 (delivered a) in
  (ret a = n -> exists buf' w',
     socket_getN os env fuel buf n server w = (Done buf', w') /\
     buf' n = x00 /\ st w' = st w) /\
  (0 < ret a < n ->
     (exists buf' w' bl cnt,
        socket_getN os env fuel buf n server w = (Done buf', w') /\
        getN_loop os fuel c n (ret a) bytes w1 = (Done (bl, cnt), w') /\
        n <= cnt /\ buf' = upd bl n x00 /\ buf' n = x00 /\ st w' = st w) \/
     fst (socket_getN os env fuel buf n server w) = Aborted \/
     fst (socket_getN os env fuel buf n server w) = Stuck) /\
  (transient a = true -> exists buf' w',
     socket_getN os env fuel buf n server w = (Done buf', w') /\
     buf' n = xff /\ st w' = st w) /\
  (ret a <= 0 -> transient a = false -> exists buf' w',
     socket_getN os env fuel buf n server w = (Done buf', w') /\
     buf' n = xff /\ conn (st w') = -1).
Proof.
  intros Hc Hn c a w1 bytes.
  unfold socket_getN. rewrite (bind_step _ _ _ _ _ (accept_attached _ _ Hc)).
  rewrite bind_get. apply Z.eqb_neq in Hc as Hc'. fold c in Hc' |- *. rewrite Hc'.
  cbn [mbind syscall]. fold a. fold w1. fold bytes.
  repeat split.
  - intros E. apply Z.eqb_eq in E as E'. rewrite E'.
    do 2 eexists. split; [reflexivity|]. split; [apply upd_same | reflexivity].
  - intros E. assert (E1 : (ret a =? n) = false) by (apply Z.eqb_neq; lia).
    assert (E2 : (ret a >? 0) = true) by (apply Z.gtb_lt; lia).
    rewrite E1, E2.
    destruct (getN_loop os fuel c n (ret a) bytes w1) as [o w'] eqn:El.
    pose proof (getN_loop_no_exit fuel c n (ret a) bytes w1) as Hne.
    rewrite El in Hne. simpl in Hne. unfold mbind. rewrite El.
    destruct o as [[bl cnt]| | |]; simpl; auto; [|congruence].
    left. apply getN_loop_done in El as [Hle Hst].
    do 4 eexists. split; [reflexivity|]. split; [reflexivity|].
    simpl in *. repeat split; auto. apply upd_same.
  - intros Et. pose proof (transient_ret _ Et) as Er.
    assert (E1 : (ret a =? n) = false) by (apply Z.eqb_neq; lia).
    assert (E2 : (ret a >? 0) = false) by (rewrite Z.gtb_ltb; apply Z.ltb_ge; lia).
    rewrite E1, E2, Et. cbn.
    do 2 eexists. split; [reflexivity|]. split; [apply upd_same | reflexivity].
  - intros Er Et.
    assert (E1 : (ret a =? n) = false) by (apply Z.eqb_neq; lia).
    assert (E2 : (ret a >? 0) = false) by (rewrite Z.gtb_ltb; apply Z.ltb_ge; lia).
    rewrite E1, E2, Et. cbn.
    do 2 eexists. split; [reflexivity|]. split; [apply upd_same | reflexivity].
Qed.

Lemma putN_loop_done fuel fd n cnt data w r w' :
  putN_loop os fuel fd n cnt data w = (Done r, w') -> n <= r /\ st w' = st w.
Proof.
  revert cnt w. induction fuel as [|fuel IH]; intros cnt w; simpl.
  - destruct (cnt <? n) eqn:E; intros Hr; inversion Hr; subst; simpl.
    apply Z.ltb_ge in E. auto.
  - destruct (cnt <? n) eqn:E.
    + unfold mbind, syscall, assert_. simpl.
      destruct (ret _ >=? 0); [|discriminate].
      destruct (ret _ >=? 0); [|discriminate].
      intros Hr. apply IH in Hr. simpl in Hr. tauto.
    + intros Hr; inversion Hr; subst; simpl. apply Z.ltb_ge in E. auto.
Qed.

Lemma putN_loop_no_exit fuel fd n cnt data w :
  fst (putN_loop os fuel fd n cnt data w) <> Exited.
Proof.
  revert cnt w. induction fuel as [|fuel IH]; intros cnt w; simpl.
  - destruct (cnt <? n); discriminate.
  - destruct (cnt <? n).
    + unfold mbind, syscall, assert_. simpl.
      destruct (ret _ >=? 0); [|discriminate].
      destruct (ret _ >=? 0); [|discriminate]. apply IH.
    + discriminate.
Qed.

(** C7 (as amended): on an attached endpoint and for [n > 0], [putN]
    returns [1] when the first non-blocking write sends all [n] bytes; when it
    sends [k] bytes with [0 < k < n], the blocking loop writes until at least
    [n] bytes are out and [putN] then returns [1], unless a failed [select] or
    [write] aborts the process on an [assert] or the loop has not returned;
    a transient [EAGAIN] returns [0] and keeps the connection; any other
    outcome ([0] bytes or a non-[EAGAIN] error) detaches and returns [0]. *)
Theorem putN_outcomes fuel n data server w :
  conn (st w) <> -1 -> 0 < n ->
  let c := conn (st w) in
  let a := os (trace w) (EvWrite c (slice data 0 n)) in
  let w1 := mk_world (st w) (EvWrite c (slice data 0 n) :: trace w) in
  (ret a = n -> socket_putN os env fuel n data server w = (Done 1, w1)) /\
  (0 < ret a < n ->
     (exists w' cnt,
        socket_putN os env fuel n data server w = (Done 1, w') /\
        putN_loop os fuel c n (ret a) data w1 = (Done cnt, w') /\
        n <= cnt /\ st w' = st w) \/
     fst (socket_putN os env fuel n data server w) = Aborted \/
     fst (socket_putN os env fuel n data server w) = Stuck) /\
  (transient a = true -> socket_putN os env fuel n data server w = (Done 0, w1)) /\
  (ret a <= 0 -> transient a = false -> exists w',
     socket_putN os env fuel n data server w = (Done 0, w') /\ conn (st w') = -1).
Proof.
  intros Hc Hn c a w1.
  unfold socket_putN. rewrite (bind_step _ _ _ _ _ (accept_attached _ _ Hc)).
  rewrite bind_get. apply Z.eqb_neq in Hc as Hc'. fold c in Hc' |- *. rewrite Hc'.
  cbn [mbind syscall]. fold a. fold w1.
  repeat split.
  - intros E. apply Z.eqb_eq in E as E'. rewrite E'. reflexivity.
  - intros E. assert (E1 : (ret a =? n) = false) by (apply Z.eqb_neq; lia).
    assert (E2 : (ret a >? 0) = true) by (apply Z.gtb_lt; lia).
    rewrite E1, E2.
    destruct (putN_loop os fuel c n (ret a) data w1) as [o w'] eqn:El.
    pose proof (putN_loop_no_exit fuel c n (ret a) data w1) as Hne.
    rewrite El in Hne. simpl in Hne. unfold mbind. rewrite El.
    destruct o as [cnt| | |]; simpl; auto; [|congruence].
    left. apply putN_loop_done in El as [Hle Hst].
    do 2 eexists. split; [reflexivity|]. split; [reflexivity|].
    simpl in *. auto.
  - intros Et. pose proof (transient_ret _ Et) as Er.
    assert (E1 : (ret a =? n) = false) by (apply Z.eqb_neq; lia).
    assert (E2 : (ret a >? 0) = false) by (rewrite Z.gtb_ltb; apply Z.ltb_ge; lia).
    rewrite E1, E2, Et. reflexivity.
  - intros Er Et.
    assert (E1 : (ret a =? n) = false) by (apply Z.eqb_neq; lia).
    assert (E2 : (ret a >? 0) = false) by (rewrite Z.gtb_ltb; apply Z.ltb_ge; lia).
    rewrite E1, E2, Et. cbn.
    eexists. split; reflexivity.
Qed.

(** C10: with [n = 0] on an attached endpoint, where a zero-length read
    returns [0], [getN] issues that one read and nothing else (no blocking
    phase), writes no data byte, sets the status slot [0] to [0] and keeps the
    connection. *)
Theorem getN_zero fuel buf server w :
  conn (st w) <> -1 ->
  ret (os (trace w) (EvRead (conn (st w)) 0)) = 0 ->
  socket_getN os env fuel buf 0 server w =
    (Done (upd buf 0 x00), mk_world (st w) (EvRead (conn (st w)) 0 :: trace w)).
Proof.
  intros Hc H0.
  unfold socket_getN. rewrite (bind_step _ _ _ _ _ (accept_attached _ _ Hc)).
  rewrite bind_get. apply Z.eqb_neq in Hc. rewrite Hc.
  cbn [mbind syscall]. rewrite H0. simpl.
  unfold delivered. rewrite H0. reflexivity.
Qed.

Lemma put8_blocking_loop_spec i b w o w' :
  put8_blocking_loop os i b w = (o, w') ->
  let c := conn (st w) in
  exists k r, (k <= i)%nat /\ o = Done r /\ st w' = st w /\
    transient_rounds os (trace w) c b k /\
    let trk := rounds_trace (trace w) c b k in
    (((k < i)%nat /\ trace w' = EvWrite c [b] :: trk /\
      let a := os trk (EvWrite c [b]) in
      (ret a = 1 /\ r = 1 \/ ret a <> 1 /\ transient a = false /\ r = 0)) \/
     (k = i /\ trace w' = trk /\ r = 0)).
Proof.
  revert w. induction i as [|i IH]; intros w H c; simpl in H.
  - inversion H; subst. exists O, 0. simpl. repeat split; auto.
  - unfold mbind, get_st, syscall in H. simpl in H. fold c in H.
    destruct (ret (os (trace w) (EvWrite c [b])) =? 1) eqn:E1.
    + inversion H; subst. exists O, 1. simpl.
      apply Z.eqb_eq in E1. repeat split; auto; try lia.
      left. split; [lia|]. split; [reflexivity|]. simpl. auto.
    + destruct (transient (os (trace w) (EvWrite c [b]))) eqn:Et; simpl in H.
      * apply IH in H. simpl in H.
        destruct H as (k & r & Hk & Ho & Hst & Hrounds & Hcase).
        exists (S k), r. simpl. repeat split; auto; try lia.
        destruct Hcase as [(Hlt & Htr & Ha) | (Heq & Htr & Hr)].
        -- left. split; [lia|]. auto.
        -- right. repeat split; auto.
      * inversion H; subst. exists O, 0. simpl.
        apply Z.eqb_neq in E1. repeat split; auto; try lia.
        left. split; [lia|]. split; [reflexivity|]. simpl. auto.
Qed.

(** C4: [put8Blocking] on an attached endpoint makes at most 1000 one-byte
    write attempts, each transient [EAGAIN] followed by [usleep(1000000)]: it
    returns [1] at the first write that accepts the byte, [0] at the first
    write that fails otherwise (no further attempt), and [0] after 1000
    transient failures.  When no connection can be attached it returns [0]
    with no write at all. *)
Theorem put8_blocking_bounded server b w :
  (conn (st w) <> -1 ->
   let c := conn (st w) in
   exists k r w',
     socket_put8_blocking os env b server w = (Done r, w') /\
     (k <= 1000)%nat /\ st w' = st w /\
     transient_rounds os (trace w) c b k /\
     let trk := rounds_trace (trace w) c b k in
     (((k < 1000)%nat /\ trace w' = EvWrite c [b] :: trk /\
       let a := os trk (EvWrite c [b]) in
       (ret a = 1 /\ r = 1 \/ ret a <> 1 /\ transient a = false /\ r = 0)) \/
      (k = 1000%nat /\ trace w' = trk /\ r = 0))) /\
  (forall w1, acceptConnection os env server w = (Done tt, w1) -> conn (st w1) = -1 ->
   socket_put8_blocking os env b server w = (Done 0, w1)).
Proof.
  split.
  - intros Hc c. unfold socket_put8_blocking.
    rewrite (bind_step _ _ _ _ _ (accept_attached _ _ Hc)), bind_get.
    apply Z.eqb_neq in Hc. rewrite Hc.
    destruct (put8_blocking_loop os 1000 b w) as [o w'] eqn:El.
    apply put8_blocking_loop_spec in El.
    destruct El as (k & r & Hk & Ho & Hst & Hrounds & Hcase). subst o.
    exists k, r, w'. auto.
  - intros w1 H Hc. unfold socket_put8_blocking.
    rewrite (bind_step _ _ _ _ _ H), bind_get. rewrite Hc. reflexivity.
Qed.

(** ** Once the listen descriptor is set, no call changes it, the port or the
    name, and none calls [getenv] *)

Lemma ext_trans a b c : ext a b -> ext b c -> ext a c.
Proof. intros H1 H2. induction H2; auto. constructor; auto. Qed.

Lemma stable_refl w : stable w w.
Proof. repeat split; constructor. Qed.

Lemma stable_trans w1 w2 w3 : stable w1 w2 -> stable w2 w3 -> stable w1 w3.
Proof.
  unfold stable. intros (?&?&?&?) (?&?&?&?).
  repeat split; try congruence. eapply ext_trans; eauto.
Qed.

Ltac close_stable :=
  unfold stable, set_conn; simpl; repeat split; try reflexivity;
  repeat (apply ext_cons; [| intros ? ?; discriminate]); apply ext_refl.

Lemma put8_blocking_loop_stable i b w o w' :
  put8_blocking_loop os i b w = (o, w') -> stable w w'.
Proof.
  revert w. induction i as [|i IH]; intros w H; simpl in H.
  - inversion H; subst. apply stable_refl.
  - unfold mbind, get_st, syscall, mret in H. simpl in H.
    destruct (_ =? 1); [inversion H; subst; close_stable|].
    destruct (transient _); simpl in H; [|inversion H; subst; close_stable].
    apply IH in H. eapply stable_trans; [|exact H]. close_stable.
Qed.

Lemma getN_loop_stable fuel fd n cnt buf w o w' :
  getN_loop os fuel fd n cnt buf w = (o, w') -> stable w w'.
Proof.
  revert cnt buf w. induction fuel as [|fuel IH]; intros cnt buf w H; simpl in H.
  - destruct (cnt <? n); inversion H; subst; apply stable_refl.
  - destruct (cnt <? n); [|inversion H; subst; apply stable_refl].
    unfold mbind, syscall, assert_ in H. simpl in H.
    destruct (_ >=? 0); [|inversion H; subst; close_stable].
    destruct (_ >=? 0); [|inversion H; subst; close_stable].
    apply IH in H. eapply stable_trans; [|exact H]. close_stable.
Qed.

Lemma putN_loop_stable fuel fd n cnt data w o w' :
  putN_loop os fuel fd n cnt data w = (o, w') -> stable w w'.
Proof.
  revert cnt w. induction fuel as [|fuel IH]; intros cnt w H; simpl in H.
  - destruct (cnt <? n); inversion H; subst; apply stable_refl.
  - destruct (cnt <? n); [|inversion H; subst; apply stable_refl].
    unfold mbind, syscall, assert_ in H. simpl in H.
    destruct (_ >=? 0); [|inversion H; subst; close_stable].
    destruct (_ >=? 0); [|inversion H; subst; close_stable].
    apply IH in H. eapply stable_trans; [|exact H]. close_stable.
Qed.

Ltac unfold_op H :=
  unfold socket_get8, socket_put8, socket_put8_blocking, socket_getN,
    socket_putN, acceptConnection, socket_init, drop_conn, close,
    socketSetNonBlocking, mbind, get_st, put_st, syscall, mret,
    exit_failure in H;
  cbn -[put8_blocking_loop getN_loop putN_loop] in H.

Ltac split_ifs H :=
  repeat (match type of H with
          | context [if ?b then _ else _] => destruct b
          | context [match getN_loop ?a ?b ?c ?d ?e ?f ?g with _ => _ end] =>
              let E := fresh "E" in
              destruct (getN_loop a b c d e f g) as [[?| | |] ?] eqn:E;
              apply getN_loop_stable in E
          | context [match putN_loop ?a ?b ?c ?d ?e ?f ?g with _ => _ end] =>
              let E := fresh "E" in
              destruct (putN_loop a b c d e f g) as [[?| | |] ?] eqn:E;
              apply putN_loop_stable in E
          | context [match put8_blocking_loop ?a ?b ?c ?d with _ => _ end] =>
              let E := fresh "E" in
              destruct (put8_blocking_loop a b c d) as [[?| | |] ?] eqn:E;
              apply put8_blocking_loop_stable in E
          end; cbn -[put8_blocking_loop getN_loop putN_loop] in H).

Ltac finish_stable H :=
  inversion H; subst;
  first [ close_stable
        | match goal with E : stable _ _ |- _ =>
            eapply stable_trans; [|exact E]; close_stable end ].

Lemma run_op_stable fuel server o w r w' :
  sock (st w) <> -1 -> run_op os env fuel server o w = (r, w') -> stable w w'.
Proof.
  intros Hs H. apply Z.eqb_neq in Hs.
  destruct o; unfold run_op in H; unfold_op H; rewrite ?Hs in H;
    cbn -[put8_blocking_loop getN_loop putN_loop] in H;
    split_ifs H; finish_stable H.
Qed.

Lemma run_ops_stable fuel server ops w r w' :
  sock (st w) <> -1 -> run_ops os env fuel server ops w = (r, w') -> stable w w'.
Proof.
  revert w. induction ops as [|o ops IH]; intros w Hs H; simpl in H.
  - inversion H; subst. apply stable_refl.
  - unfold mbind in H. destruct (run_op os env fuel server o w) as [[[]| | |] w1] eqn:E1;
      apply run_op_stable in E1; auto; try (inversion H; subst; exact E1).
    eapply stable_trans; [exact E1|]. apply IH; auto.
    destruct E1 as (E & _). congruence.
Qed.

Ltac split_ifs_eqn H :=
  repeat (match type of H with
          | context [if ?b then _ else _] => let E := fresh "C" in destruct b eqn:E
          end; cbn -[put8_blocking_loop getN_loop putN_loop] in H).

Lemma init_first server w w' :
  sock (st w) = -1 -> socket_init os env server w = (Done tt, w') ->
  sock (st w') <> -1 /\ port (st w') = resolved_port env (st w) /\
  0 <= resolved_port env (st w) <= 65535 /\ name (st w') = name (st w) /\
  exists mid, ext (trace w) mid /\
              ext (EvGetenv (name (st w) ++ "_PORT") :: mid) (trace w').
Proof.
  intros Hs H. apply Z.eqb_eq in Hs.
  unfold socket_init, getPortNumber, getenv, assert_, signal_ign_pipe in H.
  unfold_op H. rewrite ?Hs in H. cbn in H.
  split_ifs_eqn H; inversion H; subst; simpl;
  (match goal with
   | Cx : (0 <=? _) && (_ <=? 65535) = true |- _ =>
       apply andb_prop in Cx; destruct Cx as [Cx1 Cx2];
       apply Z.leb_le in Cx1; apply Z.leb_le in Cx2
   end);
  unfold resolved_port;
  repeat split; try (apply Z.eqb_neq; assumption); try assumption; try reflexivity;
  (eexists; split;
   [| repeat (apply ext_cons; [| intros ? ?; discriminate]); apply ext_refl ];
   repeat (apply ext_cons; [| intros ? ?; discriminate]); apply ext_refl).
Qed.

Lemma init_first_range server w :
  sock (st w) = -1 -> ~ (0 <= resolved_port env (st w) <= 65535) ->
  fst (socket_init os env server w) = Exited \/
  fst (socket_init os env server w) = Aborted.
Proof.
  intros Hs Hr. destruct (socket_init os env server w) as [o w'] eqn:H.
  destruct o as [[]| | |]; simpl; auto.
  - apply init_first in H; tauto.
  - exfalso. apply Z.eqb_eq in Hs.
    unfold socket_init, getPortNumber, getenv, assert_, signal_ign_pipe in H.
    unfold_op H. rewrite ?Hs in H. cbn in H.
    split_ifs_eqn H; inversion H.
Qed.

(** C8: [init] is idempotent: with the listen descriptor set it returns at
    once and changes nothing (no system call at all); a first [init] that
    returns sets it; once set, no sequence of calls changes it. *)
Theorem init_idempotent server w :
  (sock (st w) <> -1 -> socket_init os env server w = (Done tt, w)) /\
  (sock (st w) = -1 -> forall w',
     socket_init os env server w = (Done tt, w') -> sock (st w') <> -1) /\
  (sock (st w) <> -1 -> forall fuel ops r w',
     run_ops os env fuel server ops w = (r, w') -> sock (st w') = sock (st w)).
Proof.
  repeat split.
  - intros Hs. unfold socket_init. rewrite bind_get.
    apply Z.eqb_neq in Hs. rewrite Hs. reflexivity.
  - intros Hs w' H. apply init_first in H; tauto.
  - intros Hs fuel ops r w' H. apply run_ops_stable in H; auto. apply H.
Qed.

Lemma to_int32_congr x y : x mod 2 ^ 32 = y mod 2 ^ 32 -> to_int32 x = to_int32 y.
Proof. unfold to_int32. intros ->. reflexivity. Qed.

Lemma to_int32_uint32 d : to_int32 (to_uint32 (to_int32 d)) = to_int32 d.
Proof.
  apply to_int32_congr. unfold to_uint32, to_int32. rewrite Z.mod_mod by lia.
  destruct (d mod 2 ^ 32 >=? 2 ^ 31); [|apply Z.mod_mod; lia].
  rewrite Zminus_mod, Z.mod_same, Z.mod_mod by lia.
  rewrite Z.sub_0_r. apply Z.mod_mod. lia.
Qed.

(** C9: on a freshly created endpoint the port is resolved by the first
    [init]: one [getenv] of [<name>_PORT], whose value (through [atoi]) is
    taken when defined and the creation-time default otherwise; a resolved
    value outside [0..65535] ends the process.  After that first [init] no
    sequence of calls changes the port or calls [getenv] again. *)
Theorem port_resolved_once server nm d tr :
  let w := mk_world (socket_create nm d) tr in
  let var := String.append (substring 0 STR_BUFF_SZ nm) "_PORT" in
  let resolved := match env var with Some v => atoi v | None => to_int32 d end in
  (forall w', socket_init os env server w = (Done tt, w') ->
     port (st w') = resolved /\ 0 <= resolved <= 65535 /\
     (exists mid, ext tr mid /\ ext (EvGetenv var :: mid) (trace w')) /\
     (forall fuel ops r w'', run_ops os env fuel server ops w' = (r, w'') ->
        port (st w'') = resolved /\ stable w' w'')) /\
  (~ (0 <= resolved <= 65535) ->
     fst (socket_init os env server w) = Exited \/
     fst (socket_init os env server w) = Aborted).
Proof.
  intros w var resolved.
  assert (Hres : resolved_port env (st w) = resolved).
  { unfold resolved_port, resolved, var. simpl. rewrite to_int32_uint32. reflexivity. }
  split.
  - intros w' H. apply init_first in H; [|reflexivity].
    destruct H as (Hs & Hp & Hr & Hn & Hmid). rewrite Hres in Hp, Hr.
    split; [auto|]. split; [auto|]. split; [auto|].
    intros fuel ops r w'' H2. apply run_ops_stable in H2; auto.
    split; auto. destruct H2 as (_ & Hp2 & _). congruence.
  - intros Hr. apply init_first_range; [reflexivity|]. rewrite Hres. exact Hr.
Qed.

(** ** A Client endpoint whose descriptor was closed *)

Lemma accept_client_detached w :
  sock (st w) <> -1 -> conn (st w) = -1 ->
  acceptConnection os env false w =
    (Done tt, mk_world (set_conn (st w) (sock (st w))) (trace w)).
Proof.
  intros Hs Hc. unfold acceptConnection. rewrite bind_get.
  rewrite Hc. simpl. apply Z.eqb_neq in Hs. rewrite Hs. reflexivity.
Qed.

Section Dead.
Variable w : world.
Hypothesis Hs : sock (st w) <> -1.
Hypothesis Hc : conn (st w) = -1.
Hypothesis Hd : dead_fd os (sock (st w)).

Let w_att := mk_world (set_conn (st w) (sock (st w))) (trace w).

Ltac run_dead :=
  rewrite (bind_step _ _ _ _ _ (accept_client_detached w Hs Hc)), bind_get;
  unfold w_att; simpl; apply Z.eqb_neq in Hs as Hs'; rewrite Hs';
  cbn [mbind syscall].

Lemma dead_get8 :
  exists w', socket_get8 os env false w = (Done GET8_NODATA, w') /\
             sock (st w') = sock (st w) /\ conn (st w') = -1.
Proof.
  unfold socket_get8. run_dead. destruct Hd as [Hr _].
  destruct (Hr (trace w) 1) as [E1 E2]. simpl. rewrite E1, E2. simpl.
  eexists. split; [reflexivity|]. simpl. auto.
Qed.

Lemma dead_put8 b :
  exists w', socket_put8 os env b false w = (Done 0, w') /\
             sock (st w') = sock (st w) /\ conn (st w') = -1.
Proof.
  unfold socket_put8. run_dead. destruct Hd as [_ Hw].
  destruct (Hw (trace w) [b]) as [E1 E2]. simpl. rewrite E1, E2. simpl.
  eexists. split; [reflexivity|]. simpl. auto.
Qed.

Lemma dead_getN fuel buf n :
  0 <= n ->
  exists buf' w', socket_getN os env fuel buf n false w = (Done buf', w') /\
    buf' n = xff /\ sock (st w') = sock (st w) /\ conn (st w') = -1.
Proof.
  intros Hn. unfold socket_getN. run_dead. destruct Hd as [Hr _].
  destruct (Hr (trace w) n) as [E1 E2]. simpl. rewrite E1, E2.
  assert (Hne : (-1 =? n) = false) by (apply Z.eqb_neq; lia).
  rewrite Hne. simpl.
  do 2 eexists. split; [reflexivity|]. simpl. split; [apply upd_same|auto].
Qed.

Lemma dead_putN fuel n data :
  0 <= n ->
  exists w', socket_putN os env fuel n data false w = (Done 0, w') /\
    sock (st w') = sock (st w) /\ conn (st w') = -1.
Proof.
  intros Hn. unfold socket_putN. run_dead. destruct Hd as [_ Hw].
  destruct (Hw (trace w) (slice data 0 n)) as [E1 E2]. simpl. rewrite E1, E2.
  assert (Hne : (-1 =? n) = false) by (apply Z.eqb_neq; lia).
  rewrite Hne. simpl.
  eexists. split; [reflexivity|]. simpl. auto.
Qed.

Lemma dead_init :
  socket_init os env false w = (Done tt, w).
Proof.
  unfold socket_init. rewrite bind_get. apply Z.eqb_neq in Hs as Hs'.
  rewrite Hs'. reflexivity.
Qed.

End Dead.

Lemma dead_run_op fuel o w :
  sock (st w) <> -1 -> conn (st w) = -1 -> dead_fd os (sock (st w)) ->
  client_op_ok o = true ->
  exists w', run_op os env fuel false o w = (Done tt, w') /\
             sock (st w') = sock (st w) /\ conn (st w') = -1.
Proof.
  intros Hs Hc Hd Ho. destruct o; simpl in Ho; unfold run_op.
  - exists w. rewrite dead_init; auto.
  - destruct (dead_get8 w Hs Hc Hd) as (w' & E & H1 & H2).
    exists w'. rewrite (bind_step _ _ _ _ _ E). auto.
  - destruct (dead_put8 w Hs Hc Hd b) as (w' & E & H1 & H2).
    exists w'. rewrite (bind_step _ _ _ _ _ E). auto.
  - discriminate.
  - apply Z.leb_le in Ho.
    destruct (dead_getN w Hs Hc Hd fuel result nbytes Ho) as (b' & w' & E & _ & H1 & H2).
    exists w'. rewrite (bind_step _ _ _ _ _ E). auto.
  - apply Z.leb_le in Ho.
    destruct (dead_putN w Hs Hc Hd fuel nbytes data Ho) as (w' & E & H1 & H2).
    exists w'. rewrite (bind_step _ _ _ _ _ E). auto.
Qed.

Lemma dead_run_ops fuel ops w :
  sock (st w) <> -1 -> conn (st w) = -1 -> dead_fd os (sock (st w)) ->
  forallb client_op_ok ops = true ->
  exists w', run_ops os env fuel false ops w = (Done tt, w') /\
             sock (st w') = sock (st w) /\ conn (st w') = -1.
Proof.
  revert w. induction ops as [|o ops IH]; intros w Hs Hc Hd Hok; simpl in *.
  - exists w. auto.
  - apply andb_prop in Hok as [Ho Hok].
    destruct (dead_run_op fuel o w Hs Hc Hd Ho) as (w1 & E & H1 & H2).
    rewrite (bind_step _ _ _ _ _ E).
    destruct (IH w1) as (w' & E' & H1' & H2'); try congruence.
    exists w'. split; [exact E'|]. split; congruence.
Qed.

(** C3 (as amended): a Client endpoint whose connection was detached
    ([conn = -1]) while its descriptor [sock] stays set re-attaches [conn]
    to [sock] at every later call.  As long as that descriptor fails every
    [read] and [write] with an error other than [EAGAIN] (it was closed and
    its number is not reused), every later [get8], [put8], [getN] and
    [putN] (lengths [>= 0]) reports the no-data value or failure and leaves
    the connection detached again, whatever sequence of such calls and
    [init]s follows. *)
Theorem client_detached_stays w :
  sock (st w) <> -1 -> conn (st w) = -1 -> dead_fd os (sock (st w)) ->
  acceptConnection os env false w =
    (Done tt, mk_world (set_conn (st w) (sock (st w))) (trace w)) /\
  (exists w', socket_get8 os env false w = (Done GET8_NODATA, w') /\
              sock (st w') = sock (st w) /\ conn (st w') = -1) /\
  (forall b, exists w', socket_put8 os env b false w = (Done 0, w') /\
              sock (st w') = sock (st w) /\ conn (st w') = -1) /\
  (forall fuel buf n, 0 <= n ->
     exists buf' w', socket_getN os env fuel buf n false w = (Done buf', w') /\
       buf' n = xff /\ sock (st w') = sock (st w) /\ conn (st w') = -1) /\
  (forall fuel n data, 0 <= n ->
     exists w', socket_putN os env fuel n data false w = (Done 0, w') /\
       sock (st w') = sock (st w) /\ conn (st w') = -1) /\
  (forall fuel ops, forallb client_op_ok ops = true ->
     exists w', run_ops os env fuel false ops w = (Done tt, w') /\
       sock (st w') = sock (st w) /\ conn (st w') = -1).
Proof.
  intros Hs Hc Hd. split; [apply accept_client_detached; auto|].
  split; [apply dead_get8; auto|].
  split; [intros b; apply dead_put8; auto|].
  split; [intros; apply dead_getN; auto|].
  split; [intros; apply dead_putN; auto|].
  intros; apply dead_run_ops; auto.
Qed.

End Attached.
End Facts.

(** * Counterexamples, the [put8Blocking] defect, and instances *)

Module Checks.
Import SocketPacketUtils Facts Examples.

(** C1: on an attached endpoint, a [getN] of 4 bytes whose read returns 0
    (end of stream: neither all 4 bytes, nor a partial count, nor a transient
    [EAGAIN]) reports [0xFF] and detaches the connection, an outcome outside
    the three listed. *)
Lemma getN_eof_counterexample :
  conn (st w_att) = 5 /\ ret (os_eof [] (EvRead 5 4)) = 0 /\
  exists b w', socket_getN os_eof env0 1 buf0 4 true w_att = (Done b, w') /\
               b 4 = xff /\ conn (st w') = -1.
Proof.
  split; [reflexivity|]. split; [reflexivity|].
  exists (upd buf0 4 xff), (mk_world (set_conn st_att (-1)) [EvClose 5; EvRead 5 4]).
  split; [reflexivity|]. split; reflexivity.
Qed.

(** C7: the first write sends 2 of 4 bytes and the next write fails with
    [EPIPE]: [putN] does not complete and return [1]; the process aborts. *)
Lemma putN_partial_counterexample :
  ret (os_partial_write [] (EvWrite 5 [x01; x02; x03; x04])) = 2 /\
  fst (socket_putN os_partial_write env0 5 4 [x01; x02; x03; x04] true w_att) = Aborted.
Proof. split; reflexivity. Qed.

(** C3: a Client endpoint detached by a failed read attaches again at the next
    call (its connection is its descriptor 3), and once the number 3 has been
    handed out to another connection, [get8] returns a byte from it. *)
Lemma client_reattach_counterexample :
  exists w1 w2,
    socket_get8 os_reuse env0 false w_cl = (Done GET8_NODATA, w1) /\
    conn (st w1) = -1 /\
    socket_get8 os_reuse env0 false w1 = (Done 65, w2) /\
    conn (st w2) = 3.
Proof.
  do 2 eexists. split; [reflexivity|]. split; [reflexivity|].
  split; reflexivity.
Qed.

(** C2: [put8Blocking] returns [0] on a write that fails with [EPIPE] but
    leaves the connection attached, where [put8] on the same input detaches
    it. *)
Theorem put8_blocking_keeps_conn :
  socket_put8_blocking os_epipe env0 x41 true w_att =
    (Done 0, mk_world st_att [EvWrite 5 [x41]]) /\
  conn st_att = 5 /\
  socket_put8 os_epipe env0 x41 true w_att =
    (Done 0, mk_world (set_conn st_att (-1)) [EvClose 5; EvWrite 5 [x41]]).
Proof. split; [reflexivity|]. split; reflexivity. Qed.

(** ** Instances of the theorems at concrete inputs *)

Lemma getN_outcomes_witness :
  conn (st w_att) <> -1 /\ 0 < 4 /\
  (ret (os_ok [] (EvRead 5 4)) = 4 -> exists buf' w',
     socket_getN os_ok env0 1 buf0 4 true w_att = (Done buf', w') /\
     buf' 4 = x00 /\ st w' = st w_att).
Proof.
  assert (Hc : conn (st w_att) <> -1) by (vm_compute; discriminate).
  split; [exact Hc|]. split; [lia|].
  exact (proj1 (getN_outcomes os_ok env0 1 buf0 4 true w_att Hc ltac:(lia))).
Defined.

Lemma putN_outcomes_witness :
  conn (st w_att) <> -1 /\ 0 < 4 /\
  (ret (os_ok [] (EvWrite 5 [x01; x02; x03; x04])) = 4 ->
   socket_putN os_ok env0 1 4 [x01; x02; x03; x04] true w_att =
     (Done 1, mk_world st_att [EvWrite 5 [x01; x02; x03; x04]])).
Proof.
  assert (Hc : conn (st w_att) <> -1) by (vm_compute; discriminate).
  split; [exact Hc|]. split; [lia|].
  exact (proj1 (putN_outcomes os_ok env0 1 4 [x01; x02; x03; x04] true w_att Hc ltac:(lia))).
Defined.

Lemma getN_zero_witness :
  conn (st w_att) <> -1 /\ ret (os_ok [] (EvRead 5 0)) = 0 /\
  socket_getN os_ok env0 1 buf0 0 true w_att =
    (Done (upd buf0 0 x00), mk_world st_att [EvRead 5 0]).
Proof.
  assert (Hc : conn (st w_att) <> -1) by (vm_compute; discriminate).
  assert (H0 : ret (os_ok [] (EvRead 5 0)) = 0) by reflexivity.
  split; [exact Hc|]. split; [exact H0|].
  exact (getN_zero os_ok env0 1 buf0 true w_att Hc H0).
Defined.

Lemma get8_result_witness :
  acceptConnection os_ok env0 true w_att = (Done tt, w_att) /\
  exists r w', socket_get8 os_ok env0 true w_att = (Done r, w') /\ 0 <= r <= 255.
Proof.
  assert (H : acceptConnection os_ok env0 true w_att = (Done tt, w_att)) by reflexivity.
  split; [exact H|].
  destruct (get8_result os_ok env0 true w_att w_att H)
    as (r & w' & E & Hr & _ & Hiff & _).
  exists r, w'. split; [exact E|].
  destruct Hr as [Hr | Hr]; [exact Hr|].
  exfalso. apply Hiff in Hr. destruct Hr as [Hr | Hr]; vm_compute in Hr; [discriminate|].
  apply Hr; reflexivity.
Defined.

Lemma put8_result_witness :
  acceptConnection os_ok env0 true w_att = (Done tt, w_att) /\
  exists w', socket_put8 os_ok env0 x41 true w_att = (Done 1, w').
Proof.
  assert (H : acceptConnection os_ok env0 true w_att = (Done tt, w_att)) by reflexivity.
  split; [exact H|].
  destruct (put8_result os_ok env0 true x41 w_att w_att H)
    as (r & w' & E & _ & Hiff & _).
  exists w'. rewrite E. f_equal. f_equal. apply Hiff.
  split; [vm_compute; discriminate | reflexivity].
Defined.

Lemma put8_blocking_bounded_witness :
  conn (st w_att) <> -1 /\
  exists k r w', socket_put8_blocking os_ok env0 x41 true w_att = (Done r, w') /\
                 (k <= 1000)%nat.
Proof.
  assert (Hc : conn (st w_att) <> -1) by (vm_compute; discriminate).
  split; [exact Hc|].
  destruct (proj1 (put8_blocking_bounded os_ok env0 true x41 w_att) Hc)
    as (k & r & w' & E & Hk & _).
  exists k, r, w'. auto.
Defined.

Lemma init_idempotent_witness :
  sock (st w_att) <> -1 /\ socket_init os_ok env0 true w_att = (Done tt, w_att).
Proof.
  assert (Hs : sock (st w_att) <> -1) by (vm_compute; discriminate).
  split; [exact Hs|].
  exact (proj1 (init_idempotent os_ok env0 true w_att) Hs).
Defined.

Lemma port_resolved_once_witness :
  exists w', socket_init os_ok env0 true w_fresh = (Done tt, w') /\ port (st w') = 5000.
Proof.
  exists (snd (socket_init os_ok env0 true w_fresh)).
  assert (E : socket_init os_ok env0 true w_fresh =
              (Done tt, snd (socket_init os_ok env0 true w_fresh))) by reflexivity.
  split; [exact E|].
  destruct (proj1 (port_resolved_once os_ok env0 true "sock" 5000 []) _ E) as [Hp _].
  rewrite Hp. reflexivity.
Defined.

Lemma client_detached_stays_witness :
  sock (st w_dead) <> -1 /\ conn (st w_dead) = -1 /\ dead_fd os_dead (sock (st w_dead)) /\
  exists w', socket_get8 os_dead env0 false w_dead = (Done GET8_NODATA, w') /\
             conn (st w') = -1.
Proof.
  assert (Hs : sock (st w_dead) <> -1) by (vm_compute; discriminate).
  assert (Hc : conn (st w_dead) = -1) by reflexivity.
  assert (Hd : dead_fd os_dead (sock (st w_dead))) by
    (split; intros; split; reflexivity).
  split; [exact Hs|]. split; [exact Hc|]. split; [exact Hd|].
  destruct (client_detached_stays os_dead env0 w_dead Hs Hc Hd)
    as (_ & (w' & E & _ & H2) & _).
  exists w'. auto.
Defined.

End Checks.

(** * Further properties of the code *)

Module Extras.
Import SocketPacketUtils Facts.

Lemma bind_done {A B} (m : M A) (f : A -> M B) w b w' :
  mbind m f w = (Done b, w') -> exists a w1, m w = (Done a, w1) /\ f a w1 = (Done b, w').
Proof.
  unfold mbind. destruct (m w) as [[a| | |] w1]; intros H; try discriminate; eauto.
Qed.

Lemma store_spec buf off l j :
  store buf off l j =
    if (off <=? j) && (j <? off + Z.of_nat (List.length l))
    then nth (Z.to_nat (j - off)) l x00 else buf j.
Proof.
  revert buf off. induction l as [|b l IH]; intros buf off; cbn [store List.length].
  - destruct (off <=? j) eqn:E1; destruct (j <? off + Z.of_nat 0) eqn:E2; simpl; auto.
    apply Z.leb_le in E1. apply Z.ltb_lt in E2. lia.
  - rewrite IH. unfold upd. rewrite Nat2Z.inj_succ.
    destruct (Z.eq_dec j off) as [->|Hne].
    + rewrite Z.leb_refl, Z.sub_diag, Z.eqb_refl.
      replace (off + 1 <=? off) with false by (symmetry; apply Z.leb_gt; lia).
      replace (off <? off + Z.succ (Z.of_nat (List.length l))) with true
        by (symmetry; apply Z.ltb_lt; lia).
      reflexivity.
    + apply Z.eqb_neq in Hne as Hne'. rewrite Hne'.
      destruct (off + 1 <=? j) eqn:E1; destruct (j <? off + 1 + Z.of_nat (List.length l)) eqn:E2;
      destruct (off <=? j) eqn:E3; destruct (j <? off + Z.succ (Z.of_nat (List.length l))) eqn:E4;
      cbn [andb]; rewrite ?Z.leb_le, ?Z.leb_gt, ?Z.ltb_lt, ?Z.ltb_ge in *; try lia; auto.
      replace (Z.to_nat (j - off)) with (S (Z.to_nat (j - (off + 1)))) by lia.
      reflexivity.
Qed.

Ltac unfold_calls H :=
  unfold socket_get8, socket_put8, socket_put8_blocking, socket_getN,
    socket_putN, acceptConnection, socket_init, getPortNumber, getenv, assert_,
    signal_ign_pipe, drop_conn, close, socketSetNonBlocking, mbind, get_st,
    put_st, syscall, mret, exit_failure in H;
  cbn -[put8_blocking_loop getN_loop putN_loop] in H.

Ltac case_ifs H :=
  repeat (match type of H with
          | context [if ?b then _ else _] => let E := fresh "C" in destruct b eqn:E
          end; cbn -[put8_blocking_loop getN_loop putN_loop] in H).

Ltac case_ifs_loops H :=
  repeat (match type of H with
          | context [if ?b then _ else _] => destruct b
          | context [match getN_loop ?a ?b ?c ?d ?e ?f ?g with _ => _ end] =>
              let E := fresh "E" in
              destruct (getN_loop a b c d e f g) as [[?| | |] ?] eqn:E;
              apply getN_loop_stable in E
          | context [match putN_loop ?a ?b ?c ?d ?e ?f ?g with _ => _ end] =>
              let E := fresh "E" in
              destruct (putN_loop a b c d e f g) as [[?| | |] ?] eqn:E;
              apply putN_loop_stable in E
          | context [match put8_blocking_loop ?a ?b ?c ?d with _ => _ end] =>
              let E := fresh "E" in
              destruct (put8_blocking_loop a b c d) as [[?| | |] ?] eqn:E;
              apply put8_blocking_loop_stable in E
          end; cbn -[put8_blocking_loop getN_loop putN_loop] in H).

Lemma substring_full nm n : (String.length nm <= n)%nat -> substring 0 n nm = nm.
Proof.
  revert n. induction nm as [|c nm IH]; intros [|n] H; simpl in *; try lia; auto.
  f_equal. apply IH. lia.
Qed.

Lemma ext_in e mid tr : ext (e :: mid) tr -> In e tr.
Proof.
  intros H. remember (e :: mid) as l eqn:El. induction H; subst; simpl; auto.
Qed.

Lemma to_int32_small v : 0 <= v < 2 ^ 31 -> to_int32 v = v.
Proof.
  intros H. unfold to_int32. rewrite Z.mod_small by lia.
  destruct (v >=? 2 ^ 31) eqn:E; [apply Z.geb_le in E; lia | reflexivity].
Qed.

Lemma digit_char_spec d :
  (d < 10)%nat -> is_space (Numerals.digit_char d) = false /\
                  digit_of (Numerals.digit_char d) = Some (Z.of_nat d).
Proof.
  intros H. do 10 (destruct d as [|d]; [split; reflexivity|]). lia.
Qed.

(** No digit follows: the end of the string, or a character that is not a
    decimal digit. *)
Definition no_digit_next (t : string) : Prop :=
  match t with EmptyString => True | String c _ => digit_of c = None end.

Lemma digits_val_numeral ds t acc :
  Forall (fun d => (d < 10)%nat) ds -> no_digit_next t ->
  digits_val (String.append (Numerals.numeral ds) t) acc =
    fold_left (fun acc d => acc * 10 + Z.of_nat d) ds acc.
Proof.
  revert acc. induction ds as [|d ds IH]; intros acc Hd Ht;
    cbn [Numerals.numeral String.append fold_left].
  - destruct t as [|c r]; cbn [digits_val] in *; [reflexivity|].
    rewrite Ht. reflexivity.
  - inversion Hd; subst. cbn [digits_val].
    destruct (digit_char_spec d) as [_ ->]; auto.
Qed.

Lemma numeral_fold_nonneg ds acc :
  0 <= acc -> 0 <= fold_left (fun acc d => acc * 10 + Z.of_nat d) ds acc.
Proof.
  revert acc. induction ds as [|d ds IH]; intros acc H; simpl; auto.
  apply IH. lia.
Qed.

Lemma strtol10_unsigned c r :
  is_space c = false -> c <> "-"%char -> c <> "+"%char ->
  strtol10 (String c r) = Z.max LONG_MIN (Z.min LONG_MAX (digits_val (String c r) 0)).
Proof.
  intros Hs Hm Hp. unfold strtol10. simpl skip_spaces. rewrite Hs.
  destruct c as [[] [] [] [] [] [] [] []];
    solve [reflexivity | exfalso; apply Hm; reflexivity | exfalso; apply Hp; reflexivity].
Qed.

Lemma atoi_numeral ds t :
  ds <> [] -> Forall (fun d => (d < 10)%nat) ds -> no_digit_next t ->
  Numerals.numeral_value ds < 2 ^ 31 ->
  atoi (String.append (Numerals.numeral ds) t) = Numerals.numeral_value ds.
Proof.
  intros Hne Hd Ht Hv. destruct ds as [|d ds']; [congruence|].
  inversion Hd as [|? ? Hd0 _]; subst.
  destruct (digit_char_spec d Hd0) as [Hs Hdg].
  pose proof (numeral_fold_nonneg (d :: ds') 0 ltac:(lia)) as Hnn.
  unfold atoi. cbn [Numerals.numeral String.append].
  rewrite strtol10_unsigned; auto;
    [| intros E; rewrite E in Hdg; discriminate
     | intros E; rewrite E in Hdg; discriminate].
  change (String (Numerals.digit_char d) (String.append (Numerals.numeral ds') t))
    with (String.append (Numerals.numeral (d :: ds')) t).
  rewrite digits_val_numeral by auto. fold (Numerals.numeral_value (d :: ds')).
  unfold Numerals.numeral_value in *. unfold LONG_MIN, LONG_MAX.
  rewrite Z.min_r, Z.max_r by lia. apply to_int32_small. lia.
Qed.

Lemma atoi_non_numeric c r :
  is_space c = false -> digit_of c = None -> c <> "-"%char -> c <> "+"%char ->
  atoi (String c r) = 0.
Proof.
  intros Hs Hd Hm Hp. unfold atoi. rewrite strtol10_unsigned by auto.
  cbn [digits_val]. rewrite Hd. reflexivity.
Qed.

Section Endpoint.
Variable os : list event -> event -> answer.
Variable env : string -> option string.

(** When [acceptConnection] leaves no connection attached, [getN] only sets
    the status slot [n] to [0xFF] and [putN] returns [0]; neither makes any
    further call nor changes the state. *)
Theorem unattached_transfers fuel buf n nbytes data server w w1 :
  acceptConnection os env server w = (Done tt, w1) -> conn (st w1) = -1 ->
  socket_getN os env fuel buf n server w = (Done (upd buf n xff), w1) /\
  socket_putN os env fuel nbytes data server w = (Done 0, w1).
Proof.
  intros H Hc. unfold socket_getN, socket_putN.
  rewrite !(bind_step _ _ _ _ _ H), !bind_get, Hc. split; reflexivity.
Qed.

(** Whenever [getN] returns, its status slot [n] holds [0x00] or [0xFF]. *)
Theorem getN_status_binary fuel buf n server w buf' w' :
  socket_getN os env fuel buf n server w = (Done buf', w') ->
  buf' n = x00 \/ buf' n = xff.
Proof.
  unfold socket_getN. intros H.
  apply bind_done in H as (u & w1 & _ & H). rewrite bind_get in H.
  destruct (conn (st w1) =? -1).
  - inversion H; subst. right; apply upd_same.
  - cbn [mbind syscall] in H.
    destruct (ret _ =? n).
    { inversion H; subst. left; apply upd_same. }
    destruct (ret _ >? 0).
    + apply bind_done in H as ([bl c] & w2 & _ & H). inversion H; subst.
      left; apply upd_same.
    + destruct (negb (transient _)); cbn in H; inversion H; subst;
        right; apply upd_same.
Qed.

(** Whenever [put8], [put8Blocking] or [putN] returns, the result is [0] or
    [1]. *)
Theorem put_results_binary fuel server b n data w r w' :
  (socket_put8 os env b server w = (Done r, w') -> r = 0 \/ r = 1) /\
  (socket_put8_blocking os env b server w = (Done r, w') -> r = 0 \/ r = 1) /\
  (socket_putN os env fuel n data server w = (Done r, w') -> r = 0 \/ r = 1).
Proof.
  repeat split; intros H; apply bind_done in H as (u & w1 & _ & H);
    rewrite bind_get in H; destruct (conn (st w1) =? -1);
    try (inversion H; subst; auto; fail).
  - cbn [mbind syscall] in H. destruct (ret _ =? 1).
    + inversion H; auto.
    + destruct (negb (transient _)); cbn in H; inversion H; auto.
  - apply put8_blocking_loop_spec in H.
    destruct H as (k & r0 & _ & Ho & _ & _ & Hcase). inversion Ho; subst.
    destruct Hcase as [(_ & _ & [(_ & ->) | (_ & _ & ->)]) | (_ & _ & ->)]; auto.
  - cbn [mbind syscall] in H. destruct (ret _ =? n).
    + inversion H; auto.
    + destruct (ret _ >? 0).
      * apply bind_done in H as (c & w2 & _ & H). inversion H; auto.
      * destruct (negb (transient _)); cbn in H; inversion H; auto.
Qed.

(** A Server endpoint with its listen descriptor set and no connection
    calls [accept] once.  On [-1] the connection stays [-1]; otherwise the
    new descriptor is stored, then made non-blocking with [fcntl] get and
    set, and a failure of either ends the process. *)
Theorem accept_server_reattach w :
  sock (st w) <> -1 -> conn (st w) = -1 ->
  let s := sock (st w) in
  let k := ret (os (trace w) (EvAccept s)) in
  let tr1 := EvAccept s :: trace w in
  let tr2 := EvFcntlGetfl k :: tr1 in
  let tr3 := EvFcntlSetfl k :: tr2 in
  let st1 := set_conn (st w) k in
  (k = -1 -> acceptConnection os env true w = (Done tt, mk_world st1 tr1)) /\
  (k <> -1 -> ret (os tr1 (EvFcntlGetfl k)) = -1 ->
     acceptConnection os env true w = (Exited, mk_world st1 tr2)) /\
  (k <> -1 -> ret (os tr1 (EvFcntlGetfl k)) <> -1 ->
     ret (os tr2 (EvFcntlSetfl k)) = -1 ->
     acceptConnection os env true w = (Exited, mk_world st1 tr3)) /\
  (k <> -1 -> ret (os tr1 (EvFcntlGetfl k)) <> -1 ->
     ret (os tr2 (EvFcntlSetfl k)) <> -1 ->
     acceptConnection os env true w = (Done tt, mk_world st1 tr3)).
Proof.
  intros Hs Hc s k tr1 tr2 tr3 st1. subst st1 tr3 tr2 tr1 k s.
  apply Z.eqb_neq in Hs.
  unfold acceptConnection, socketSetNonBlocking, mbind, mret, get_st, syscall,
    put_st, exit_failure.
  simpl. rewrite Hc, Hs. simpl.
  repeat split; intros Hk.
  - rewrite (proj2 (Z.eqb_eq _ _) Hk). reflexivity.
  - intros H1. rewrite (proj2 (Z.eqb_neq _ _) Hk). simpl.
    rewrite (proj2 (Z.eqb_eq _ _) H1). reflexivity.
  - intros H1 H2. rewrite (proj2 (Z.eqb_neq _ _) Hk). simpl.
    rewrite (proj2 (Z.eqb_neq _ _) H1). simpl. rewrite (proj2 (Z.eqb_eq _ _) H2). reflexivity.
  - intros H1 H2. rewrite (proj2 (Z.eqb_neq _ _) Hk). simpl.
    rewrite (proj2 (Z.eqb_neq _ _) H1). simpl. rewrite (proj2 (Z.eqb_neq _ _) H2). reflexivity.
Qed.

(** When the first read of [getN] on an attached endpoint returns all [n]
    bytes, result bytes [0..n-1] are those bytes, the status slot [n] is
    [0], every other byte is unchanged, and the read is the only call. *)
Theorem getN_full_read fuel buf n server w :
  conn (st w) <> -1 -> 0 <= n ->
  let c := conn (st w) in
  let a := os (trace w) (EvRead c n) in
  ret a = n -> n <= Z.of_nat (List.length (rdata a)) ->
  exists buf',
    socket_getN os env fuel buf n server w =
      (Done buf', mk_world (st w) (EvRead c n :: trace w)) /\
    (forall i, 0 <= i < n -> buf' i = nth (Z.to_nat i) (rdata a) x00) /\
    buf' n = x00 /\
    (forall i, i < 0 \/ n < i -> buf' i = buf i).
Proof.
  intros Hc Hn c a Hr Hlen.
  unfold socket_getN. rewrite (bind_step _ _ _ _ _ (accept_attached _ _ _ _ Hc)).
  rewrite bind_get. apply Z.eqb_neq in Hc as Hc'. fold c in Hc' |- *. rewrite Hc'.
  cbn [mbind syscall]. fold a. rewrite Hr, Z.eqb_refl.
  eexists. split; [reflexivity|].
  assert (Hd : List.length (delivered a) = Z.to_nat n).
  { unfold delivered. rewrite Hr. apply firstn_length_le. lia. }
  split; [|split; [apply upd_same|]].
  - intros i Hi. unfold upd. rewrite (proj2 (Z.eqb_neq i n)) by lia.
    rewrite store_spec, Hd.
    rewrite (proj2 (Z.leb_le 0 i)), (proj2 (Z.ltb_lt i _)) by lia. simpl.
    unfold delivered. rewrite Hr, nth_firstn, Z.sub_0_r.
    rewrite (proj2 (Nat.ltb_lt _ _)) by lia. reflexivity.
  - intros i Hi. unfold upd. rewrite (proj2 (Z.eqb_neq i n)) by lia.
    rewrite store_spec, Hd.
    destruct Hi as [Hi|Hi].
    + rewrite (proj2 (Z.leb_gt 0 i)) by lia. reflexivity.
    + rewrite (proj2 (Z.ltb_ge i _)) by lia. rewrite Bool.andb_false_r. reflexivity.
Qed.

(** A first [init] that returns makes exactly these calls in this order:
    [signal], [socket], [setsockopt], [getenv] of [<name>_PORT], then [bind]
    and [listen] (Server) or [connect] (Client) on the resolved port, then
    [fcntl] get and set on the new descriptor; it stores the descriptor and
    the port and keeps the name and the connection.  That port is the one
    resolved from [<name>_PORT] or the default. *)
Theorem init_call_order server w w' :
  sock (st w) = -1 -> socket_init os env server w = (Done tt, w') ->
  let fd := ret (os (EvSignalIgnPipe :: trace w) EvSocket) in
  let p := port (st w') in
  trace w' =
    (if server then [EvFcntlSetfl fd; EvFcntlGetfl fd; EvListen fd; EvBind fd p]
     else [EvFcntlSetfl fd; EvFcntlGetfl fd; EvConnect fd p]) ++
    [EvGetenv (String.append (name (st w)) "_PORT"); EvSetsockopt fd; EvSocket; EvSignalIgnPipe] ++
    trace w /\
  st w' = mk_state (name (st w)) p fd (conn (st w)) /\
  p = resolved_port env (st w).
Proof.
  intros Hs H fd p.
  assert (Hp : p = resolved_port env (st w)) by apply (init_first os env server w w' Hs H).
  revert Hp. subst fd p. apply Z.eqb_eq in Hs.
  unfold_calls H. rewrite ?Hs in H. cbn in H.
  destruct server; case_ifs H; inversion H; subst; simpl; intros Hp;
    exact (conj eq_refl (conj eq_refl Hp)).
Qed.

Lemma run_op_name fuel server o w r w' :
  run_op os env fuel server o w = (r, w') -> name (st w') = name (st w).
Proof.
  intros H. destruct o; unfold run_op in H; unfold_calls H; case_ifs_loops H;
    inversion H; subst; simpl;
    first [ reflexivity
          | match goal with E : stable _ _ |- _ =>
              destruct E as (_ & _ & En & _); simpl in En; rewrite En; reflexivity end ].
Qed.

(** No sequence of calls changes the endpoint's name. *)
Theorem name_invariant fuel server ops w r w' :
  run_ops os env fuel server ops w = (r, w') -> name (st w') = name (st w).
Proof.
  revert w. induction ops as [|o ops IH]; intros w H; simpl in H.
  - inversion H; subst. reflexivity.
  - unfold mbind in H.
    destruct (run_op os env fuel server o w) as [[[]| | |] w1] eqn:E1;
      apply run_op_name in E1; try (inversion H; subst; exact E1).
    rewrite <- E1. apply IH. exact H.
Qed.

(** [atoi] of a decimal numeral (with a value below [2^31]) followed by a
    non-digit or nothing is the numeral's value; [atoi] of a string whose
    first character is no space, sign or digit is [0]. *)
Theorem atoi_decimal ds t c r :
  (ds <> [] -> Forall (fun d => (d < 10)%nat) ds -> no_digit_next t ->
   Numerals.numeral_value ds < 2 ^ 31 ->
   atoi (String.append (Numerals.numeral ds) t) = Numerals.numeral_value ds) /\
  (is_space c = false -> digit_of c = None -> c <> "-"%char -> c <> "+"%char ->
   atoi (String c r) = 0).
Proof. split; [apply atoi_numeral | apply atoi_non_numeric]. Qed.

(** The port a first [init] resolves from [<name>_PORT]: a decimal numeral
    followed by anything that is not a digit gives its value; a text that
    starts with a character that is no space, sign or digit gives port [0]. *)
Theorem port_from_env_text server w w' :
  sock (st w) = -1 -> socket_init os env server w = (Done tt, w') ->
  (forall ds t, env (String.append (name (st w)) "_PORT") = Some (String.append (Numerals.numeral ds) t) ->
     ds <> [] -> Forall (fun d => (d < 10)%nat) ds -> no_digit_next t ->
     Numerals.numeral_value ds < 2 ^ 31 ->
     port (st w') = Numerals.numeral_value ds) /\
  (forall c r, env (String.append (name (st w)) "_PORT") = Some (String c r) ->
     is_space c = false -> digit_of c = None -> c <> "-"%char -> c <> "+"%char ->
     port (st w') = 0).
Proof.
  intros Hs H. apply init_first in H; auto.
  destruct H as (_ & Hp & _). unfold resolved_port in Hp.
  split.
  - intros ds t He Hne Hd Ht Hv. rewrite He in Hp. rewrite Hp.
    apply atoi_numeral; auto.
  - intros c r He Hsp Hdg Hm Hpl. rewrite He in Hp. rewrite Hp.
    apply atoi_non_numeric; auto.
Qed.

(** [serv_socket_create_nameless] creates an unattached endpoint with the
    given port; without [SOCKET_PACKET_UTILS_DFLT_SOCKET_NAME] its name is
    [SOCKET_PACKET_UTILS_DFLT], and its first [init] reads
    [SOCKET_PACKET_UTILS_DFLT_PORT]; with it (shorter than [STR_BUFF_SZ])
    the name is that value. *)
Theorem nameless_create d :
  let s := serv_socket_create_nameless env d in
  sock s = -1 /\ conn s = -1 /\ port s = to_int32 d /\
  (env ENV_DFLT_SOCKET_NAME = None ->
     name s = DFLT_SOCKET_NAME /\
     forall server tr w', socket_init os env server (mk_world s tr) = (Done tt, w') ->
       In (EvGetenv "SOCKET_PACKET_UTILS_DFLT_PORT") (trace w') /\
       port (st w') = match env "SOCKET_PACKET_UTILS_DFLT_PORT" with
                      | Some v => atoi v
                      | None => to_int32 d
                      end) /\
  (forall nm, env ENV_DFLT_SOCKET_NAME = Some nm ->
     (String.length nm < STR_BUFF_SZ)%nat -> name s = nm).
Proof.
  intros s. unfold s, serv_socket_create_nameless.
  destruct (env ENV_DFLT_SOCKET_NAME) as [nm|] eqn:Ee.
  - split; [reflexivity|]. split; [reflexivity|]. split; [reflexivity|].
    split; [discriminate|].
    intros nm' E Hl. injection E as <-. apply substring_full. lia.
  - split; [reflexivity|]. split; [reflexivity|]. split; [reflexivity|].
    split; [|discriminate]. intros _. split; [reflexivity|].
    intros server tr w' H. apply init_first in H; [|reflexivity].
    destruct H as (_ & Hp & _ & _ & mid & _ & Hx). split.
    + apply ext_in in Hx. exact Hx.
    + rewrite Hp. unfold resolved_port. simpl.
      destruct (env "SOCKET_PACKET_UTILS_DFLT_PORT"); [reflexivity|].
      apply to_int32_uint32.
Qed.

(** On an attached endpoint, a failed first transfer that is not a
    transient [EAGAIN] closes the connection descriptor and sets it to
    [-1], right after the failed call; [getN] then writes no data byte and
    sets the status slot to [0xFF]. *)
Theorem detach_closes fuel buf n nbytes data b server w :
  conn (st w) <> -1 ->
  let c := conn (st w) in
  let st' := set_conn (st w) (-1) in
  (let a := os (trace w) (EvRead c 1) in
   ret a <> 1 -> transient a = false ->
   socket_get8 os env server w =
     (Done GET8_NODATA, mk_world st' (EvClose c :: EvRead c 1 :: trace w))) /\
  (let a := os (trace w) (EvWrite c [b]) in
   ret a <> 1 -> transient a = false ->
   socket_put8 os env b server w =
     (Done 0, mk_world st' (EvClose c :: EvWrite c [b] :: trace w))) /\
  (let a := os (trace w) (EvRead c n) in
   0 < n -> ret a <= 0 -> transient a = false ->
   socket_getN os env fuel buf n server w =
     (Done (upd buf n xff), mk_world st' (EvClose c :: EvRead c n :: trace w))) /\
  (let a := os (trace w) (EvWrite c (slice data 0 nbytes)) in
   0 < nbytes -> ret a <= 0 -> transient a = false ->
   socket_putN os env fuel nbytes data server w =
     (Done 0, mk_world st' (EvClose c :: EvWrite c (slice data 0 nbytes) :: trace w))).
Proof.
  intros Hc c st'. pose proof (accept_attached os env server w Hc) as Ha.
  apply Z.eqb_neq in Hc as Hc'.
  repeat split; intros a.
  - intros H1 Ht. unfold socket_get8. rewrite (bind_step _ _ _ _ _ Ha), bind_get.
    fold c in Hc' |- *. rewrite Hc'. cbn [mbind syscall]. fold a.
    rewrite (proj2 (Z.eqb_neq _ _) H1), Ht. reflexivity.
  - intros H1 Ht. unfold socket_put8. rewrite (bind_step _ _ _ _ _ Ha), bind_get.
    fold c in Hc' |- *. rewrite Hc'. cbn [mbind syscall]. fold a.
    rewrite (proj2 (Z.eqb_neq _ _) H1), Ht. reflexivity.
  - intros Hn H1 Ht. unfold socket_getN. rewrite (bind_step _ _ _ _ _ Ha), bind_get.
    fold c in Hc' |- *. rewrite Hc'. cbn [mbind syscall]. fold a.
    rewrite (proj2 (Z.eqb_neq (ret a) n)) by lia.
    rewrite Z.gtb_ltb, (proj2 (Z.ltb_ge _ _)) by lia. rewrite Ht.
    unfold delivered. replace (Z.to_nat (ret a)) with O by lia. reflexivity.
  - intros Hn H1 Ht. unfold socket_putN. rewrite (bind_step _ _ _ _ _ Ha), bind_get.
    fold c in Hc' |- *. rewrite Hc'. cbn [mbind syscall]. fold a.
    rewrite (proj2 (Z.eqb_neq (ret a) nbytes)) by lia.
    rewrite Z.gtb_ltb, (proj2 (Z.ltb_ge _ _)) by lia. rewrite Ht. reflexivity.
Qed.

Lemma store_outside buf off l j :
  j < off \/ off + Z.of_nat (List.length l) <= j -> store buf off l j = buf j.
Proof.
  intros H. rewrite store_spec.
  destruct (off <=? j) eqn:E1; destruct (j <? off + Z.of_nat (List.length l)) eqn:E2;
    simpl; auto.
  apply Z.leb_le in E1. apply Z.ltb_lt in E2. lia.
Qed.

Lemma delivered_length a : Z.of_nat (List.length (delivered a)) <= Z.max 0 (ret a).
Proof.
  unfold delivered. rewrite length_firstn. lia.
Qed.

Lemma getN_loop_bounds fuel fd n cnt buf w bl c w' :
  reads_bounded os -> 0 <= cnt ->
  getN_loop os fuel fd n cnt buf w = (Done (bl, c), w') ->
  forall j, j < cnt \/ n <= j -> bl j = buf j.
Proof.
  intros Hb. revert cnt buf w. induction fuel as [|fuel IH]; intros cnt buf w Hc H j Hj;
    simpl in H.
  - destruct (cnt <? n); inversion H; subst; reflexivity.
  - destruct (cnt <? n) eqn:Ec; [|inversion H; subst; reflexivity].
    apply Z.ltb_lt in Ec.
    unfold mbind, syscall, assert_ in H. simpl in H.
    destruct (_ >=? 0); [|discriminate].
    destruct (ret _ >=? 0) eqn:Er; [|discriminate].
    apply Z.geb_le in Er.
    match type of H with getN_loop _ _ _ _ ?c2 _ _ = _ =>
      assert (Hc2 : 0 <= c2) by lia; rewrite (IH _ _ _ Hc2 H j) by lia end.
    apply store_outside. cbn [trace st].
    match goal with |- context [delivered ?a] =>
      pose proof (delivered_length a); pose proof (Hb (EvSelectRead fd :: trace w) fd (n - cnt))
    end.
    lia.
Qed.

(** If [read] never reports more bytes than asked for, [getN] with [n >= 0]
    writes no byte of the result outside indices [0..n]. *)
Theorem getN_in_bounds fuel buf n server w buf' w' :
  reads_bounded os -> 0 <= n ->
  socket_getN os env fuel buf n server w = (Done buf', w') ->
  forall j, j < 0 \/ n < j -> buf' j = buf j.
Proof.
  intros Hb Hn H j Hj. unfold socket_getN in H.
  apply bind_done in H as (u & w1 & _ & H). rewrite bind_get in H.
  assert (Hu : upd buf n xff j = buf j)
    by (unfold upd; rewrite (proj2 (Z.eqb_neq j n)) by lia; reflexivity).
  destruct (conn (st w1) =? -1); [inversion H; subst; exact Hu|].
  cbn [mbind syscall] in H.
  set (a := os (trace w1) (EvRead (conn (st w1)) n)) in H.
  pose proof (delivered_length a) as Hd.
  pose proof (Hb (trace w1) (conn (st w1)) n) as Hr. fold a in Hr.
  assert (Hs : store buf 0 (delivered a) j = buf j) by (apply store_outside; lia).
  destruct (ret a =? n).
  { inversion H; subst. unfold upd. rewrite (proj2 (Z.eqb_neq j n)) by lia. exact Hs. }
  destruct (ret a >? 0) eqn:Ep.
  - apply bind_done in H as ([bl c] & w2 & El & H). inversion H; subst.
    unfold upd. rewrite (proj2 (Z.eqb_neq j n)) by lia. simpl.
    apply Z.gtb_lt in Ep.
    assert (Hc0 : 0 <= ret a) by lia.
    rewrite (getN_loop_bounds _ _ _ _ _ _ _ _ _ Hb Hc0 El j) by lia. exact Hs.
  - destruct (negb (transient a)); cbn in H; inversion H; subst;
      unfold upd; rewrite (proj2 (Z.eqb_neq j n)) by lia; exact Hs.
Qed.

End Endpoint.
End Extras.

(** * Instances of the further properties *)

Module ExtraChecks.
Import SocketPacketUtils Examples Extras.
Local Open Scope string_scope.

Definition w_dead_accept_failed : world :=
  mk_world (mk_state "sock" 5000 3 (-1)) [EvAccept 3].

Lemma unattached_transfers_witness :
  acceptConnection os_dead env0 true w_dead = (Done tt, w_dead_accept_failed) /\
  conn (st w_dead_accept_failed) = -1 /\
  socket_getN os_dead env0 1 buf0 4 true w_dead =
    (Done (upd buf0 4 xff), w_dead_accept_failed).
Proof.
  assert (H : acceptConnection os_dead env0 true w_dead = (Done tt, w_dead_accept_failed))
    by reflexivity.
  assert (Hc : conn (st w_dead_accept_failed) = -1) by reflexivity.
  split; [exact H|]. split; [exact Hc|].
  exact (proj1 (unattached_transfers os_dead env0 1 buf0 4 4 [] true w_dead _ H Hc)).
Defined.

Lemma getN_status_binary_witness :
  socket_getN os_ok env0 1 buf0 4 true w_att =
    (Done (upd (store buf0 0 [x41; x41; x41; x41]) 4 x00), mk_world st_att [EvRead 5 4]) /\
  (upd (store buf0 0 [x41; x41; x41; x41]) 4 x00 4 = x00 \/
   upd (store buf0 0 [x41; x41; x41; x41]) 4 x00 4 = xff).
Proof.
  assert (E : socket_getN os_ok env0 1 buf0 4 true w_att =
    (Done (upd (store buf0 0 [x41; x41; x41; x41]) 4 x00), mk_world st_att [EvRead 5 4]))
    by reflexivity.
  split; [exact E|]. exact (getN_status_binary os_ok env0 1 buf0 4 true w_att _ _ E).
Defined.

Lemma put_results_binary_witness :
  socket_put8 os_ok env0 x41 true w_att = (Done 1, mk_world st_att [EvWrite 5 [x41]]) /\
  (1 = 0 \/ 1 = 1).
Proof.
  assert (E : socket_put8 os_ok env0 x41 true w_att =
              (Done 1, mk_world st_att [EvWrite 5 [x41]])) by reflexivity.
  split; [exact E|].
  exact (proj1 (put_results_binary os_ok env0 1 true x41 0 [] w_att _ _) E).
Defined.

Lemma accept_server_reattach_witness :
  sock (st w_dead) <> -1 /\ conn (st w_dead) = -1 /\
  acceptConnection os_ok env0 true w_dead =
    (Done tt, mk_world (set_conn (st w_dead) 0) [EvFcntlSetfl 0; EvFcntlGetfl 0; EvAccept 3]).
Proof.
  assert (Hs : sock (st w_dead) <> -1) by (vm_compute; discriminate).
  assert (Hc : conn (st w_dead) = -1) by reflexivity.
  split; [exact Hs|]. split; [exact Hc|].
  apply (proj2 (proj2 (proj2 (accept_server_reattach os_ok env0 w_dead Hs Hc))));
    vm_compute; discriminate.
Defined.

Lemma getN_full_read_witness :
  exists buf', socket_getN os_ok env0 1 buf0 4 true w_att =
                 (Done buf', mk_world st_att [EvRead 5 4]) /\
               buf' 0 = x41 /\ buf' 3 = x41 /\ buf' 4 = x00 /\ buf' 5 = x00.
Proof.
  assert (Hc : conn (st w_att) <> -1) by (vm_compute; discriminate).
  destruct (getN_full_read os_ok env0 1 buf0 4 true w_att Hc ltac:(lia)
              eq_refl ltac:(vm_compute; discriminate))
    as (buf' & E & Hin & Hn & Hout).
  exists buf'. split; [exact E|].
  split; [apply (Hin 0); lia|]. split; [apply (Hin 3); lia|].
  split; [exact Hn|]. rewrite (Hout 5) by lia. reflexivity.
Defined.

Lemma init_call_order_witness :
  sock (st w_fresh) = -1 /\
  socket_init os_ok env0 true w_fresh =
    (Done tt, snd (socket_init os_ok env0 true w_fresh)) /\
  trace (snd (socket_init os_ok env0 true w_fresh)) =
    [EvFcntlSetfl 0; EvFcntlGetfl 0; EvListen 0; EvBind 0 5000;
     EvGetenv "sock_PORT"; EvSetsockopt 0; EvSocket; EvSignalIgnPipe].
Proof.
  assert (Hs : sock (st w_fresh) = -1) by reflexivity.
  assert (E : socket_init os_ok env0 true w_fresh =
              (Done tt, snd (socket_init os_ok env0 true w_fresh))) by reflexivity.
  split; [exact Hs|]. split; [exact E|].
  exact (proj1 (init_call_order os_ok env0 true w_fresh _ Hs E)).
Defined.

Lemma name_invariant_witness :
  let res := run_ops os_ok env0 1 true [OpInit; OpGet8; OpPutN 2 [x01; x02]] w_fresh in
  res = (fst res, snd res) /\ name (st (snd res)) = "sock"%string.
Proof.
  intros res.
  assert (E : res = (fst res, snd res)) by reflexivity.
  split; [exact E|].
  exact (name_invariant os_ok env0 1 true _ w_fresh _ _ E).
Defined.

Lemma atoi_decimal_witness :
  atoi "80x" = 80 /\ atoi "x80" = 0.
Proof.
  destruct (atoi_decimal [8; 0]%nat "x" "x"%char "80") as [H1 H2].
  split.
  - exact (H1 ltac:(discriminate)
              ltac:(constructor; [lia|]; constructor; [lia|]; constructor)
              eq_refl ltac:(vm_compute; reflexivity)).
  - exact (H2 eq_refl eq_refl ltac:(discriminate) ltac:(discriminate)).
Defined.

Lemma port_from_env_text_witness :
  sock (st w_fresh) = -1 /\
  socket_init os_ok env_port80 true w_fresh =
    (Done tt, snd (socket_init os_ok env_port80 true w_fresh)) /\
  port (st (snd (socket_init os_ok env_port80 true w_fresh))) = 80.
Proof.
  assert (Hs : sock (st w_fresh) = -1) by reflexivity.
  assert (E : socket_init os_ok env_port80 true w_fresh =
              (Done tt, snd (socket_init os_ok env_port80 true w_fresh))) by reflexivity.
  split; [exact Hs|]. split; [exact E|].
  exact (proj1 (port_from_env_text os_ok env_port80 true w_fresh _ Hs E) [8; 0]%nat "x"
           eq_refl ltac:(discriminate)
           ltac:(constructor; [lia|]; constructor; [lia|]; constructor)
           eq_refl ltac:(vm_compute; reflexivity)).
Defined.

Lemma nameless_create_witness :
  env0 ENV_DFLT_SOCKET_NAME = None /\
  name (serv_socket_create_nameless env0 5000) = DFLT_SOCKET_NAME /\
  In (EvGetenv "SOCKET_PACKET_UTILS_DFLT_PORT")
     (trace (snd (socket_init os_ok env0 true
                    (mk_world (serv_socket_create_nameless env0 5000) [])))).
Proof.
  assert (He : env0 ENV_DFLT_SOCKET_NAME = None) by reflexivity.
  destruct (nameless_create os_ok env0 5000) as (_ & _ & _ & H & _).
  destruct (H He) as [Hn Hinit].
  split; [exact He|]. split; [exact Hn|].
  apply (Hinit true []). reflexivity.
Defined.

Lemma detach_closes_witness :
  conn (st w_att) <> -1 /\
  socket_put8 os_epipe env0 x41 true w_att =
    (Done 0, mk_world (set_conn st_att (-1)) [EvClose 5; EvWrite 5 [x41]]).
Proof.
  assert (Hc : conn (st w_att) <> -1) by (vm_compute; discriminate).
  split; [exact Hc|].
  apply (proj1 (proj2 (detach_closes os_epipe env0 1 buf0 4 4 [] x41 true w_att Hc)));
    vm_compute; [discriminate | reflexivity].
Defined.

Lemma getN_in_bounds_witness :
  reads_bounded os_ok /\
  socket_getN os_ok env0 1 buf0 4 true w_att =
    (Done (upd (store buf0 0 [x41; x41; x41; x41]) 4 x00), mk_world st_att [EvRead 5 4]) /\
  upd (store buf0 0 [x41; x41; x41; x41]) 4 x00 7 = buf0 7.
Proof.
  assert (Hb : reads_bounded os_ok) by (intros tr fd len; simpl; lia).
  assert (E : socket_getN os_ok env0 1 buf0 4 true w_att =
    (Done (upd (store buf0 0 [x41; x41; x41; x41]) 4 x00), mk_world st_att [EvRead 5 4]))
    by reflexivity.
  split; [exact Hb|]. split; [exact E|].
  apply (getN_in_bounds os_ok env0 1 buf0 4 true w_att _ _ Hb ltac:(lia) E). lia.
Defined.

End ExtraChecks.
